(** * arch-mcp: the stdio JSON-RPC servers, embedded and checked

    The repository holds nine small Python scripts that speak line-delimited
    JSON-RPC on standard input and output.  Four of them implement the read /
    dispatch / write cycle by hand ([minimal.py], [minimal_server.py],
    [basic_server.py], [simple_server.py]); the others register tool handlers
    with an SDK ([server_fixed.py], [working_server.py], [server_stdio.py]).

    Below, each script is a function on the sequence of results that
    [readline] hands out, producing the chronological list of lines printed
    to stdout and stderr, the way the process ended, and the reads that were
    never performed. *)

From Stdlib Require Import String Ascii List ZArith Bool Lia DecimalString.
Import ListNotations.
Local Open Scope string_scope.
Local Open Scope list_scope.
Set Warnings "-register-all".

(** ** JSON values as Python's [json] module produces them *)

Inductive json : Type :=
| JNull                                   (* None *)
| JBool (b : bool)
| JInt (z : Z)
| JFloat (repr : string)                  (* a float, kept as its repr *)
| JStr (s : string)
| JArr (items : list json)
| JObj (members : list (string * json)).  (* dict, in insertion order *)

Definition dict : Type := list (string * json).

(** [d.get(key)], with Python's default [None]. *)
Fixpoint dict_get (d : dict) (key : string) : json :=
  match d with
  | [] => JNull
  | (k, v) :: d' => if String.eqb k key then v else dict_get d' key
  end.

(** [d.get(key, default)]. *)
Fixpoint dict_get_default (d : dict) (key : string) (default : json) : json :=
  match d with
  | [] => default
  | (k, v) :: d' => if String.eqb k key then v else dict_get_default d' key default
  end.

(** [key in d]. *)
Fixpoint dict_mem (d : dict) (key : string) : bool :=
  match d with
  | [] => false
  | (k, _) :: d' => String.eqb k key || dict_mem d' key
  end.

(** [d[key] = v]: an existing key keeps its position. *)
Fixpoint dict_set (d : dict) (key : string) (v : json) : dict :=
  match d with
  | [] => [(key, v)]
  | (k, w) :: d' =>
      if String.eqb k key then (k, v) :: d' else (k, w) :: dict_set d' key v
  end.

(** [v == s] for a string literal [s]: only a [str] can be equal to it. *)
Definition eq_str (v : json) (s : string) : bool :=
  match v with
  | JStr t => String.eqb t s
  | _ => false
  end.

(** ** What a run leaves behind *)

Inductive exn : Type :=
| JSONDecodeError
| KeyError (key : string)
| TypeError
| AttributeError.

Inductive diag : Type :=
| Text (s : string)            (* a fixed message *)
| Received (method : json)     (* f"Received: {request['method']}" *)
| Error (e : exn).             (* f"Error: {e}" *)

Inductive event : Type :=
| Stdout (line : string)
| Stderr (d : diag).

Inductive exit : Type :=
| Exited                       (* main returned *)
| Crashed (e : exn).           (* an exception left main *)

Record run : Type := {
  events : list event;
  status : exit;
  unread : list string
}.

Fixpoint stdout_of (evs : list event) : list string :=
  match evs with
  | [] => []
  | Stdout l :: evs' => l :: stdout_of evs'
  | Stderr _ :: evs' => stdout_of evs'
  end.

Fixpoint stderr_of (evs : list event) : list diag :=
  match evs with
  | [] => []
  | Stdout _ :: evs' => stderr_of evs'
  | Stderr d :: evs' => d :: stderr_of evs'
  end.

(** ** Statements that print and may raise

    A block of statements yields what it printed, in order, and either a
    value or the exception that cut it short. *)

Inductive result (A : Type) : Type :=
| Ok (a : A)
| Raise (e : exn).
Arguments Ok {A} a.
Arguments Raise {A} e.

Definition io (A : Type) : Type := list event * result A.

Definition ret {A : Type} (a : A) : io A := ([], Ok a).

Definition raise {A : Type} (e : exn) : io A := ([], Raise e).

Definition bind {A B : Type} (m : io A) (k : A -> io B) : io B :=
  match m with
  | (out, Ok a) => let (out', r) := k a in (out ++ out', r)
  | (out, Raise e) => (out, Raise e)
  end.

Notation "x <- m ;; k" := (bind m (fun x => k))
  (at level 61, m at next level, right associativity).
Notation "m ;; k" := (bind m (fun _ => k))
  (at level 61, right associativity).

(** [print(s, flush=True)] and [print(..., file=sys.stderr)]. *)
Definition print (s : string) : io unit := ([Stdout s], Ok tt).
Definition eprint (d : diag) : io unit := ([Stderr d], Ok tt).

(** [try: body  except Exception as e: print(f"Error: {e}", file=sys.stderr)] *)
Definition try_except (body : io unit) : list event :=
  match body with
  | (out, Ok _) => out
  | (out, Raise e) => out ++ [Stderr (Error e)]
  end.

(** [request[key]]: [KeyError] on a dict without the key, [TypeError] on
    anything that is not a dict (lists, strings and numbers do not take a
    string subscript). *)
Definition getitem (request : json) (key : string) : io json :=
  match request with
  | JObj d => if dict_mem d key then ret (dict_get d key) else raise (KeyError key)
  | _ => raise TypeError
  end.

(** [request.get(key)]: only dicts have the method. *)
Definition get (request : json) (key : string) : io json :=
  match request with
  | JObj d => ret (dict_get d key)
  | _ => raise AttributeError
  end.

(** ** [str.strip()] on characters below 256 *)

Definition isspace (c : ascii) : bool :=
  let n := nat_of_ascii c in
  (((9 <=? n) && (n <=? 13)) || ((28 <=? n) && (n <=? 32))
   || (n =? 133) || (n =? 160))%nat.

Fixpoint lstrip (s : string) : string :=
  match s with
  | String c s' => if isspace c then lstrip s' else s
  | EmptyString => EmptyString
  end.

Fixpoint rstrip (s : string) : string :=
  match s with
  | EmptyString => EmptyString
  | String c s' =>
      match rstrip s' with
      | EmptyString => if isspace c then EmptyString else String c EmptyString
      | t => String c t
      end
  end.

Definition strip (s : string) : string := rstrip (lstrip s).

(** ** The [json] module, as the scripts use it

    [loads] answers [None] where Python raises [JSONDecodeError]. *)

Class JsonModule : Type := {
  loads : string -> option json;
  dumps : json -> string
}.

Definition json_loads `{J : JsonModule} (s : string) : io json :=
  match loads s with
  | Some v => ret v
  | None => raise JSONDecodeError
  end.

(** [sys.stdin.readline()]: the next read, or the empty string once the
    reads are used up. *)
Definition readline (reads : list string) : string * list string :=
  match reads with
  | [] => ("", [])
  | line :: rest => (line, rest)
  end.

(** [not line]. *)
Definition is_empty (line : string) : bool :=
  match line with
  | EmptyString => true
  | String _ _ => false
  end.

(** ** The response literal shared by the hand-written servers *)

Definition initialize_result : json :=
  JObj [("protocolVersion", JStr "2024-11-05");
        ("capabilities", JObj [("tools", JObj [])]);
        ("serverInfo", JObj [("name", JStr "architecture-server");
                             ("version", JStr "1.0.0")])].

Definition initialize_response (id : json) : json :=
  JObj [("jsonrpc", JStr "2.0"); ("id", id); ("result", initialize_result)].

(** ** simple_server.py *)

Module SimpleServer.
Section WithJson.
Context `{J : JsonModule}.

Definition send_response (response : json) : io unit :=
  print (dumps response).

Definition tools : json :=
  JArr [JObj [("name", JStr "architecture_status");
              ("description", JStr "Get architecture status");
              ("inputSchema", JObj [("type", JStr "object");
                                    ("properties", JObj [])])]].

Definition tools_list_response (id : json) : json :=
  JObj [("jsonrpc", JStr "2.0"); ("id", id);
        ("result", JObj [("tools", tools)])].

(** The body of the [try]. *)
Definition handle (line : string) : io unit :=
  request <- json_loads (strip line) ;;
  method <- get request "method" ;;
  if eq_str method "initialize" then
    id <- getitem request "id" ;;
    send_response (initialize_response id)
  else
    method <- get request "method" ;;
    if eq_str method "tools/list" then
      id <- getitem request "id" ;;
      send_response (tools_list_response id)
    else ret tt.

Definition step (line : string) : list event := try_except (handle line).

(** [for line in sys.stdin]: the iteration ends at the first empty read. *)
Fixpoint loop (reads : list string) : list event * list string :=
  match reads with
  | [] => ([], [])
  | line :: rest =>
      if is_empty line then ([], rest)
      else let (evs, left) := loop rest in (step line ++ evs, left)
  end.

Definition main (reads : list string) : run :=
  let (evs, left) := loop reads in
  {| events := Stderr (Text "Architecture MCP Server starting") :: evs;
     status := Exited;
     unread := left |}.

End WithJson.
End SimpleServer.

(** ** basic_server.py *)

Module BasicServer.
Section WithJson.
Context `{J : JsonModule}.

(** The part of the [try] after the read. *)
Definition handle (line : string) : io unit :=
  request <- json_loads (strip line) ;;
  shown <- getitem request "method" ;;
  eprint (Received shown) ;;
  method <- get request "method" ;;
  if eq_str method "initialize" then
    id <- getitem request "id" ;;
    print (dumps (initialize_response id)) ;;
    eprint (Text "Initialized")
  else ret tt.

Definition step (line : string) : list event := try_except (handle line).

(** [while True: line = sys.stdin.readline(); if not line: break; ...] *)
Fixpoint loop (reads : list string) : list event * list string :=
  match reads with
  | [] => ([], [])
  | line :: rest =>
      if is_empty line then ([], rest)
      else let (evs, left) := loop rest in (step line ++ evs, left)
  end.

Definition main (reads : list string) : run :=
  let (evs, left) := loop reads in
  {| events := Stderr (Text "Architecture server starting") :: evs;
     status := Exited;
     unread := left |}.

End WithJson.
End BasicServer.

(** ** minimal.py and minimal_server.py *)

(** The loop both scripts end with: read until the first empty read, look
    at nothing. *)
Fixpoint keep_alive (reads : list string) : list string :=
  match reads with
  | [] => []
  | line :: rest => if is_empty line then rest else keep_alive rest
  end.

(** A script whose statements before the final loop are [body]: an
    exception there ends the process, with the reads after the first one
    never made. *)
Definition then_keep_alive (body : io unit) (rest : list string) : run :=
  match body with
  | (out, Raise e) => {| events := out; status := Crashed e; unread := rest |}
  | (out, Ok _) => {| events := out; status := Exited; unread := keep_alive rest |}
  end.

Module Minimal.
Section WithJson.
Context `{J : JsonModule}.

Definition handshake (line : string) : io unit :=
  request <- json_loads line ;;
  id <- getitem request "id" ;;
  print (dumps (initialize_response id)).

Definition main (reads : list string) : run :=
  let (line, rest) := readline reads in
  then_keep_alive (handshake line) rest.

End WithJson.
End Minimal.

Module MinimalServer.
Section WithJson.
Context `{J : JsonModule}.

Definition handshake (line : string) : io unit :=
  request <- json_loads line ;;
  id <- getitem request "id" ;;
  print (dumps (initialize_response id)) ;;
  eprint (Text "Server initialized").

Definition main (reads : list string) : run :=
  let (line, rest) := readline reads in
  then_keep_alive
    (eprint (Text "Architecture MCP Server starting...") ;; handshake line)
    rest.

End WithJson.
End MinimalServer.

(** ** The SDK-based servers: tool descriptors and handlers *)

Record Tool : Type := {
  name : string;
  description : string;
  inputSchema : json
}.

Record TextContent : Type := {
  type : string;
  text : string
}.

Section Formatting.
(** [str(v)] for a value that is not a [str]. *)
Variable py_str : json -> string.

(** A replacement field [{v}] of an f-string. *)
Definition format (v : json) : string :=
  match v with
  | JStr s => s
  | _ => py_str v
  end.

(** [f"Pattern {pattern_type} added: {pattern_data}"] *)
Definition pattern_added (pattern_type pattern_data : json) : string :=
  "Pattern " ++ format pattern_type ++ " added: " ++ format pattern_data.
End Formatting.

Definition status_text : string :=
  "Architecture v10.8 operational with professional accuracy enforcement".

Definition pattern_schema : json :=
  JObj [("type", JStr "object");
        ("properties", JObj [("pattern_type", JObj [("type", JStr "string")]);
                             ("pattern_data", JObj [("type", JStr "string")])]);
        ("required", JArr [JStr "pattern_type"; JStr "pattern_data"])].

Definition empty_schema : json :=
  JObj [("type", JStr "object"); ("properties", JObj [])].

Module ServerFixed.
Section WithStr.
Variable py_str : json -> string.

Definition list_tools : list Tool :=
  [ {| name := "architecture_status";
       description := "Get current architecture status";
       inputSchema := empty_schema |};
    {| name := "add_pattern";
       description := "Add new architectural pattern";
       inputSchema := pattern_schema |} ].

(** Falling off the end of the [if]/[elif] returns [None]. *)
Definition call_tool (n : string) (arguments : dict)
  : option (list TextContent) :=
  if String.eqb n "architecture_status" then
    Some [ {| type := "text"; text := status_text |} ]
  else if String.eqb n "add_pattern" then
    let pattern_type := dict_get_default arguments "pattern_type" (JStr "unknown") in
    let pattern_data := dict_get_default arguments "pattern_data" (JStr "") in
    Some [ {| type := "text";
              text := pattern_added py_str pattern_type pattern_data |} ]
  else None.
End WithStr.
End ServerFixed.

Module WorkingServer.
Section WithStr.
Variable py_str : json -> string.

Definition list_tools : list Tool :=
  [ {| name := "architecture_status";
       description := "Get current architecture status";
       inputSchema := empty_schema |};
    {| name := "add_pattern";
       description := "Add architectural pattern";
       inputSchema := pattern_schema |} ].

Definition call_tool (n : string) (arguments : dict)
  : option (list TextContent) :=
  if String.eqb n "architecture_status" then
    Some [ {| type := "text"; text := status_text |} ]
  else if String.eqb n "add_pattern" then
    let pattern_type := dict_get_default arguments "pattern_type" (JStr "unknown") in
    let pattern_data := dict_get_default arguments "pattern_data" (JStr "") in
    Some [ {| type := "text";
              text := pattern_added py_str pattern_type pattern_data |} ]
  else None.
End WithStr.
End WorkingServer.

Module ServerStdio.

Definition list_tools : list Tool :=
  [ {| name := "architecture_status";
       description := "Get current architecture status";
       inputSchema := empty_schema |} ].

Definition call_tool (n : string) (arguments : dict)
  : option (list TextContent) :=
  if String.eqb n "architecture_status" then
    Some [ {| type := "text"; text := status_text |} ]
  else None.

End ServerStdio.

(** ** server.py: tools and a resource registered with FastMCP

    The decorated functions take and return [str]. *)

(** [d.get(key, default)] on a dict from [str] to [str]. *)
Fixpoint str_get (d : list (string * string)) (key default : string) : string :=
  match d with
  | [] => default
  | (k, v) :: d' => if String.eqb k key then v else str_get d' key default
  end.

Module Server.

Definition architecture_status : string :=
  "Architecture v10.8 operational with professional accuracy enforcement".

Definition add_pattern (pattern_type pattern_data : string) : string :=
  "Pattern " ++ pattern_type ++ " added: " ++ pattern_data.

Definition get_user_preferences : string :=
  "Brief professional communication, D: drive preference, && command chains".

Definition configs : list (string * string) :=
  [("accuracy", "Professional accuracy protocol active");
   ("tools", "Tool safety enforcement - read_multiple_files prohibited");
   ("memory", "User preference pattern storage operational");
   ("mcp", "MCP servers: filesystem, brave-search, puppeteer, memory, architecture")].

Definition get_config (component : string) : string :=
  str_get configs component ("Config for " ++ component ++ " not found").

End Server.

(** ** A reference [json] module

    The servers above run with any [JsonModule].  To run them on actual
    lines, here is a decoder and an encoder for the part of JSON without
    fractions, exponents, [NaN] and the infinities, and [\u] escapes in the
    input; on that part they follow [json.loads] (later duplicate keys win,
    surrounding whitespace is allowed, control characters inside a string
    are refused) and [json.dumps] with its default separators and
    [ensure_ascii]. *)

Module RefJson.
Local Open Scope string_scope.

Definition quote : ascii := ascii_of_nat 34.
Definition backslash : ascii := ascii_of_nat 92.

Definition ch (c : ascii) (s : string) : bool :=
  match s with
  | String d EmptyString => Ascii.eqb c d
  | _ => false
  end.

Definition is_ws (c : ascii) : bool :=
  let n := nat_of_ascii c in
  ((n =? 32) || (n =? 9) || (n =? 10) || (n =? 13))%nat.

Definition is_digit (c : ascii) : bool :=
  let n := nat_of_ascii c in ((48 <=? n) && (n <=? 57))%nat.

Definition digit (c : ascii) : Z := Z.of_nat (nat_of_ascii c) - 48.

Fixpoint skip_ws (s : list ascii) : list ascii :=
  match s with
  | c :: s' => if is_ws c then skip_ws s' else s
  | [] => []
  end.

Definition unescape (c : ascii) : option ascii :=
  if Ascii.eqb c quote then Some quote
  else if Ascii.eqb c backslash then Some backslash
  else if ch c "/" then Some "/"%char
  else if ch c "b" then Some (ascii_of_nat 8)
  else if ch c "f" then Some (ascii_of_nat 12)
  else if ch c "n" then Some (ascii_of_nat 10)
  else if ch c "r" then Some (ascii_of_nat 13)
  else if ch c "t" then Some (ascii_of_nat 9)
  else None.

(** The characters of a string literal, after its opening quote. *)
Fixpoint parse_chars (s : list ascii) : option (string * list ascii) :=
  match s with
  | [] => None
  | c :: s' =>
      if Ascii.eqb c quote then Some (EmptyString, s')
      else if Ascii.eqb c backslash then
        match s' with
        | e :: s'' =>
            match unescape e, parse_chars s'' with
            | Some d, Some (t, r) => Some (String d t, r)
            | _, _ => None
            end
        | [] => None
        end
      else if (nat_of_ascii c <? 32)%nat then None
      else
        match parse_chars s' with
        | Some (t, r) => Some (String c t, r)
        | None => None
        end
  end.

Fixpoint parse_digits (s : list ascii) (acc : Z) : Z * list ascii :=
  match s with
  | c :: s' => if is_digit c then parse_digits s' (10 * acc + digit c) else (acc, s)
  | [] => (acc, [])
  end.

(** [0] or a digit string without a leading zero; a fraction or an
    exponent after it is not decoded. *)
Definition parse_nat (s : list ascii) : option (Z * list ascii) :=
  match s with
  | c :: s' =>
      if negb (is_digit c) then None
      else
        let (n, r) := if ch c "0" then (0%Z, s') else parse_digits s 0 in
        match r with
        | d :: _ =>
            if is_digit d || ch d "." || ch d "e" || ch d "E" then None
            else Some (n, r)
        | [] => Some (n, r)
        end
  | [] => None
  end.

Definition parse_int (s : list ascii) : option (json * list ascii) :=
  match s with
  | c :: s' =>
      if ch c "-" then
        match parse_nat s' with
        | Some (n, r) => Some (JInt (- n), r)
        | None => None
        end
      else
        match parse_nat s with
        | Some (n, r) => Some (JInt n, r)
        | None => None
        end
  | [] => None
  end.

Definition keyword (k : string) (s : list ascii) : option (list ascii) :=
  let n := String.length k in
  if list_eq_dec ascii_dec (firstn n s) (list_ascii_of_string k)
  then Some (skipn n s) else None.

Fixpoint parse_value (fuel : nat) (s : list ascii) : option (json * list ascii) :=
  match fuel with
  | O => None
  | S fuel' =>
      match skip_ws s with
      | [] => None
      | c :: r =>
          if Ascii.eqb c quote then
            match parse_chars r with
            | Some (t, r') => Some (JStr t, r')
            | None => None
            end
          else if ch c "[" then
            match skip_ws r with
            | d :: r' =>
                if ch d "]" then Some (JArr [], r')
                else
                  match parse_items fuel' r with
                  | Some (vs, r'') => Some (JArr vs, r'')
                  | None => None
                  end
            | [] => None
            end
          else if ch c "{" then
            match skip_ws r with
            | d :: r' =>
                if ch d "}" then Some (JObj [], r')
                else
                  match parse_members fuel' r [] with
                  | Some (ms, r'') => Some (JObj ms, r'')
                  | None => None
                  end
            | [] => None
            end
          else if ch c "n" then option_map (pair JNull) (keyword "null" (c :: r))
          else if ch c "t" then option_map (pair (JBool true)) (keyword "true" (c :: r))
          else if ch c "f" then option_map (pair (JBool false)) (keyword "false" (c :: r))
          else parse_int (c :: r)
      end
  end
with parse_items (fuel : nat) (s : list ascii) : option (list json * list ascii) :=
  match fuel with
  | O => None
  | S fuel' =>
      match parse_value fuel' s with
      | Some (v, r) =>
          match skip_ws r with
          | c :: r' =>
              if ch c "," then
                match parse_items fuel' r' with
                | Some (vs, r'') => Some (v :: vs, r'')
                | None => None
                end
              else if ch c "]" then Some ([v], r')
              else None
          | [] => None
          end
      | None => None
      end
  end
with parse_members (fuel : nat) (s : list ascii) (acc : dict)
  : option (dict * list ascii) :=
  match fuel with
  | O => None
  | S fuel' =>
      match skip_ws s with
      | q :: r =>
          if negb (Ascii.eqb q quote) then None
          else
            match parse_chars r with
            | Some (key, r1) =>
                match skip_ws r1 with
                | c :: r2 =>
                    if negb (ch c ":") then None
                    else
                      match parse_value fuel' r2 with
                      | Some (v, r3) =>
                          let acc' := dict_set acc key v in
                          match skip_ws r3 with
                          | d :: r4 =>
                              if ch d "," then parse_members fuel' r4 acc'
                              else if ch d "}" then Some (acc', r4)
                              else None
                          | [] => None
                          end
                      | None => None
                      end
                | [] => None
                end
            | None => None
            end
      | [] => None
      end
  end.

Definition ref_loads (s : string) : option json :=
  let cs := list_ascii_of_string s in
  match parse_value (2 * List.length cs + 2) cs with
  | Some (v, r) =>
      match skip_ws r with
      | [] => Some v
      | _ :: _ => None
      end
  | None => None
  end.

Definition hex (n : nat) : ascii :=
  ascii_of_nat (if (n <? 10)%nat then 48 + n else 87 + n).

Definition escape (c : ascii) : string :=
  let n := nat_of_ascii c in
  if Ascii.eqb c quote then String backslash (String quote EmptyString)
  else if Ascii.eqb c backslash then String backslash (String backslash EmptyString)
  else if (n =? 10)%nat then "\n"
  else if (n =? 13)%nat then "\r"
  else if (n =? 9)%nat then "\t"
  else if (n =? 8)%nat then "\b"
  else if (n =? 12)%nat then "\f"
  else if ((n <? 32) || (126 <? n))%nat then
    "\u00" ++ String (hex (n / 16)) (String (hex (n mod 16)) EmptyString)
  else String c EmptyString.

Fixpoint escape_all (s : string) : string :=
  match s with
  | EmptyString => EmptyString
  | String c s' => escape c ++ escape_all s'
  end.

Definition quoted (s : string) : string :=
  String quote (escape_all s) ++ String quote EmptyString.

Fixpoint ref_dumps (v : json) : string :=
  match v with
  | JNull => "null"
  | JBool true => "true"
  | JBool false => "false"
  | JInt z => NilZero.string_of_int (Z.to_int z)
  | JFloat r => r
  | JStr s => quoted s
  | JArr items =>
      "[" ++ (fix join (l : list json) : string :=
                match l with
                | [] => ""
                | x :: l' =>
                    match l' with
                    | [] => ref_dumps x
                    | _ :: _ => ref_dumps x ++ ", " ++ join l'
                    end
                end) items ++ "]"
  | JObj members =>
      "{" ++ (fix join (l : dict) : string :=
                match l with
                | [] => ""
                | (k, x) :: l' =>
                    match l' with
                    | [] => quoted k ++ ": " ++ ref_dumps x
                    | _ :: _ => quoted k ++ ": " ++ ref_dumps x ++ ", " ++ join l'
                    end
                end) members ++ "}"
  end.

(** [str(v)] for a value that is not a [str]; strings inside lists and
    dicts are shown between apostrophes, as Python shows those without
    apostrophes, backslashes or control characters. *)
Fixpoint ref_str (v : json) : string :=
  match v with
  | JNull => "None"
  | JBool true => "True"
  | JBool false => "False"
  | JInt z => NilZero.string_of_int (Z.to_int z)
  | JFloat r => r
  | JStr s => "'" ++ s ++ "'"
  | JArr items =>
      "[" ++ (fix join (l : list json) : string :=
                match l with
                | [] => ""
                | x :: l' =>
                    match l' with
                    | [] => ref_str x
                    | _ :: _ => ref_str x ++ ", " ++ join l'
                    end
                end) items ++ "]"
  | JObj members =>
      "{" ++ (fix join (l : dict) : string :=
                match l with
                | [] => ""
                | (k, x) :: l' =>
                    match l' with
                    | [] => "'" ++ k ++ "': " ++ ref_str x
                    | _ :: _ => "'" ++ k ++ "': " ++ ref_str x ++ ", " ++ join l'
                    end
                end) members ++ "}"
  end.

Definition module : JsonModule := {| loads := ref_loads; dumps := ref_dumps |}.

(** Lines are written below with an apostrophe where JSON has a double
    quote; [dq] puts the double quotes back. *)
Fixpoint dq (s : string) : string :=
  match s with
  | EmptyString => EmptyString
  | String c s' => String (if ch c "'" then quote else c) (dq s')
  end.

End RefJson.

(** ** Vocabulary of the statements below *)

(** No read of [reads] is the empty string: the end of the stream is not
    among them. *)
Definition no_empty_read (reads : list string) : bool :=
  forallb (fun l => negb (is_empty l)) reads.

(** The reads before the first empty one. *)
Fixpoint before_eof (reads : list string) : list string :=
  match reads with
  | [] => []
  | line :: rest => if is_empty line then [] else line :: before_eof rest
  end.

(** Every character of [s] is whitespace for [strip]. *)
Fixpoint all_space (s : string) : bool :=
  match s with
  | EmptyString => true
  | String c s' => isspace c && all_space s'
  end.

(** A line of output that decodes to an object with the given member. *)
Definition has_member `{J : JsonModule} (key : string) (l : string) : bool :=
  match loads l with
  | Some (JObj d) => dict_mem d key
  | _ => false
  end.

(** The process wrote exactly one line to stdout, a JSON-RPC error object. *)
Definition answered_with_error `{J : JsonModule} (evs : list event) : Prop :=
  exists l, stdout_of evs = [l] /\ has_member "error" l = true.

(** The names under ["required"] in an input schema. *)
Definition required (schema : json) : list string :=
  match schema with
  | JObj d =>
      match dict_get d "required" with
      | JArr items =>
          flat_map (fun v => match v with JStr s => [s] | _ => [] end) items
      | _ => []
      end
  | _ => []
  end.

(** The required names that [arguments] does not carry. *)
Definition missing (schema : json) (arguments : dict) : list string :=
  filter (fun key => negb (dict_mem arguments key)) (required schema).

Definition find_tool (registry : list Tool) (n : string) : option Tool :=
  find (fun t => String.eqb (name t) n) registry.

(** The handler handed content blocks back: a result. *)
Definition returned_content (r : option (list TextContent)) : bool :=
  match r with
  | Some (_ :: _) => true
  | _ => false
  end.

(** Where a stdout line of [simple_server.py] comes from. *)
Definition simple_answer_to `{J : JsonModule} (line l : string) : Prop :=
  exists d : dict,
    loads (strip line) = Some (JObj d)
    /\ dict_mem d "id" = true
    /\ (dict_get d "method" = JStr "initialize"
        /\ l = dumps (initialize_response (dict_get d "id"))
        \/ dict_get d "method" = JStr "tools/list"
           /\ l = dumps (SimpleServer.tools_list_response (dict_get d "id"))).

(** Where a stdout line of [basic_server.py] comes from. *)
Definition basic_answer_to `{J : JsonModule} (line l : string) : Prop :=
  exists d : dict,
    loads (strip line) = Some (JObj d)
    /\ dict_mem d "id" = true
    /\ dict_get d "method" = JStr "initialize"
    /\ l = dumps (initialize_response (dict_get d "id")).

(** A decoded value that is a dict. *)
Definition is_object (v : json) : bool :=
  match v with
  | JObj _ => true
  | _ => false
  end.

(** An input line: [s] with double quotes for its apostrophes, and a newline. *)
Definition line_of (s : string) : string :=
  RefJson.dq s ++ String (ascii_of_nat 10) EmptyString.

(** The lines the examples feed to the servers. *)
Module Lines.
Definition initialize_1 : string :=
  line_of "{'jsonrpc':'2.0','id':1,'method':'initialize','params':{}}".
Definition initialize_2 : string :=
  line_of "{'jsonrpc':'2.0','id':2,'method':'initialize','params':{}}".
Definition tools_list_1 : string :=
  line_of "{'jsonrpc':'2.0','id':1,'method':'tools/list'}".
Definition tools_list_2 : string :=
  line_of "{'jsonrpc':'2.0','id':2,'method':'tools/list'}".
Definition tools_list_3 : string :=
  line_of "{'jsonrpc':'2.0','id':3,'method':'tools/list'}".
Definition resources_list_7 : string :=
  line_of "{'jsonrpc':'2.0','id':7,'method':'resources/list'}".
Definition ping_5 : string :=
  line_of "{'jsonrpc':'2.0','id':5,'method':'ping'}".
Definition garbage : string := line_of "not json".

(** The text of the [initialize] response under the id written [id]. *)
Definition answer (id : string) : string :=
  RefJson.dq
    ("{'jsonrpc': '2.0', 'id': " ++ id
     ++ ", 'result': {'protocolVersion': '2024-11-05', "
     ++ "'capabilities': {'tools': {}}, "
     ++ "'serverInfo': {'name': 'architecture-server', 'version': '1.0.0'}}}")%string.
End Lines.

Definition ref := RefJson.module.

(** * Properties *)

Lemma stdout_of_app (a b : list event) :
  stdout_of (a ++ b) = stdout_of a ++ stdout_of b.
Proof.
  induction a as [|[l|d] a IH]; simpl; [reflexivity | f_equal; exact IH | exact IH].
Qed.

Lemma keep_alive_app (lines rest : list string) :
  no_empty_read lines = true ->
  keep_alive (lines ++ rest) = keep_alive rest.
Proof.
  induction lines as [|l lines IH]; simpl; intros Hne; [reflexivity|].
  apply andb_prop in Hne as [Hl Hne].
  destruct (is_empty l); [discriminate|]. now apply IH.
Qed.

(** Both hand-written loops have one shape: they differ in [step] only. *)
Ltac loop_app_tac :=
  let l := fresh "l" in let pre := fresh "pre" in
  let IH := fresh "IH" in let Hne := fresh "Hne" in let Hl := fresh "Hl" in
  intros pre; induction pre as [|l pre IH]; simpl; intros rest Hne;
  [ apply surjective_pairing
  | apply andb_prop in Hne as [Hl Hne];
    destruct (is_empty l); [discriminate|];
    rewrite (IH rest Hne); simpl; now rewrite app_assoc ].

Section SimpleServerFacts.
Context `{J : JsonModule}.
Import SimpleServer.

Lemma simple_loop_app : forall pre rest,
  no_empty_read pre = true ->
  loop (pre ++ rest)
  = (flat_map step pre ++ fst (loop rest), snd (loop rest)).
Proof. loop_app_tac. Qed.

Lemma simple_loop_all (pre : list string) :
  no_empty_read pre = true -> loop pre = (flat_map step pre, []).
Proof.
  intros Hne. rewrite <- (app_nil_r pre) at 1.
  rewrite simple_loop_app by exact Hne. simpl. now rewrite app_nil_r.
Qed.

Lemma simple_main_app (pre rest : list string) :
  no_empty_read pre = true ->
  main (pre ++ rest)
  = {| events := events (main pre) ++ fst (loop rest);
       status := Exited;
       unread := snd (loop rest) |}.
Proof.
  intros Hne. unfold main.
  rewrite (simple_loop_app pre rest Hne), (simple_loop_all pre Hne).
  reflexivity.
Qed.

Lemma simple_loop_cons (line : string) (rest : list string) :
  is_empty line = false ->
  loop (line :: rest) = (step line ++ fst (loop rest), snd (loop rest)).
Proof. intros Hl. simpl. rewrite Hl. now destruct (loop rest). Qed.

(** What one decoded object gets: the two methods the script knows, each
    needing an id, and silence for the rest. *)
Lemma simple_step_object (line : string) (d : dict) :
  loads (strip line) = Some (JObj d) ->
  step line
  = if eq_str (dict_get d "method") "initialize" then
      if dict_mem d "id"
      then [Stdout (dumps (initialize_response (dict_get d "id")))]
      else [Stderr (Error (KeyError "id"))]
    else if eq_str (dict_get d "method") "tools/list" then
      if dict_mem d "id"
      then [Stdout (dumps (tools_list_response (dict_get d "id")))]
      else [Stderr (Error (KeyError "id"))]
    else [].
Proof.
  intros Hd. unfold step, handle, json_loads. rewrite Hd. simpl.
  destruct (eq_str (dict_get d "method") "initialize");
    [|destruct (eq_str (dict_get d "method") "tools/list")];
    simpl; try reflexivity; now destruct (dict_mem d "id").
Qed.

Lemma simple_step_malformed (line : string) :
  loads (strip line) = None -> step line = [Stderr (Error JSONDecodeError)].
Proof. intros Hd. unfold step, handle, json_loads. now rewrite Hd. Qed.

(** The events of a run, with one line singled out. *)
Lemma simple_events_split (pre : list string) (line : string) (rest : list string) :
  no_empty_read pre = true -> is_empty line = false ->
  events (main (pre ++ line :: rest))
  = events (main pre) ++ step line ++ fst (loop rest).
Proof.
  intros Hne Hl. rewrite simple_main_app by exact Hne.
  rewrite simple_loop_cons by exact Hl. reflexivity.
Qed.

End SimpleServerFacts.

Section BasicServerFacts.
Context `{J : JsonModule}.
Import BasicServer.

Lemma basic_loop_app : forall pre rest,
  no_empty_read pre = true ->
  loop (pre ++ rest)
  = (flat_map step pre ++ fst (loop rest), snd (loop rest)).
Proof. loop_app_tac. Qed.

Lemma basic_loop_all (pre : list string) :
  no_empty_read pre = true -> loop pre = (flat_map step pre, []).
Proof.
  intros Hne. rewrite <- (app_nil_r pre) at 1.
  rewrite basic_loop_app by exact Hne. simpl. now rewrite app_nil_r.
Qed.

Lemma basic_main_app (pre rest : list string) :
  no_empty_read pre = true ->
  main (pre ++ rest)
  = {| events := events (main pre) ++ fst (loop rest);
       status := Exited;
       unread := snd (loop rest) |}.
Proof.
  intros Hne. unfold main.
  rewrite (basic_loop_app pre rest Hne), (basic_loop_all pre Hne).
  reflexivity.
Qed.

Lemma basic_loop_cons (line : string) (rest : list string) :
  is_empty line = false ->
  loop (line :: rest) = (step line ++ fst (loop rest), snd (loop rest)).
Proof. intros Hl. simpl. rewrite Hl. now destruct (loop rest). Qed.

(** A decoded object is logged by its method; only [initialize] is
    answered. *)
Lemma basic_step_object (line : string) (d : dict) :
  loads (strip line) = Some (JObj d) ->
  step line
  = if dict_mem d "method" then
      Stderr (Received (dict_get d "method"))
      :: (if eq_str (dict_get d "method") "initialize" then
            if dict_mem d "id"
            then [Stdout (dumps (initialize_response (dict_get d "id")));
                  Stderr (Text "Initialized")]
            else [Stderr (Error (KeyError "id"))]
          else [])
    else [Stderr (Error (KeyError "method"))].
Proof.
  intros Hd. unfold step, handle, json_loads. rewrite Hd. simpl.
  destruct (dict_mem d "method"); simpl; [|reflexivity].
  destruct (eq_str (dict_get d "method") "initialize"); simpl;
    [|reflexivity].
  now destruct (dict_mem d "id").
Qed.

Lemma basic_step_malformed (line : string) :
  loads (strip line) = None -> step line = [Stderr (Error JSONDecodeError)].
Proof. intros Hd. unfold step, handle, json_loads. now rewrite Hd. Qed.

End BasicServerFacts.

(** ** minimal.py and minimal_server.py: one answer, then silence *)

Section MinimalFacts.
Context `{J : JsonModule}.

Lemma minimal_main_answers (first : string) (rest : list string) (d : dict) :
  loads first = Some (JObj d) ->
  dict_mem d "id" = true ->
  Minimal.main (first :: rest)
  = {| events := [Stdout (dumps (initialize_response (dict_get d "id")))];
       status := Exited;
       unread := keep_alive rest |}.
Proof.
  intros Hd Hid.
  unfold Minimal.main, Minimal.handshake, json_loads, readline.
  rewrite Hd. simpl. now rewrite Hid.
Qed.

Lemma minimal_server_main_answers (first : string) (rest : list string) (d : dict) :
  loads first = Some (JObj d) ->
  dict_mem d "id" = true ->
  MinimalServer.main (first :: rest)
  = {| events := [Stderr (Text "Architecture MCP Server starting...");
                  Stdout (dumps (initialize_response (dict_get d "id")));
                  Stderr (Text "Server initialized")];
       status := Exited;
       unread := keep_alive rest |}.
Proof.
  intros Hd Hid.
  unfold MinimalServer.main, MinimalServer.handshake, json_loads, readline.
  rewrite Hd. simpl. now rewrite Hid.
Qed.

(** The first line is decoded outside any [try]. *)
Lemma minimal_main_crashes (first : string) (rest : list string) :
  loads first = None ->
  Minimal.main (first :: rest)
  = {| events := []; status := Crashed JSONDecodeError; unread := rest |}
  /\ MinimalServer.main (first :: rest)
     = {| events := [Stderr (Text "Architecture MCP Server starting...")];
          status := Crashed JSONDecodeError;
          unread := rest |}.
Proof.
  intros Hd.
  unfold Minimal.main, Minimal.handshake, MinimalServer.main,
    MinimalServer.handshake, json_loads, readline.
  rewrite Hd. split; reflexivity.
Qed.

Lemma keep_alive_all (lines : list string) :
  no_empty_read lines = true -> keep_alive lines = [].
Proof.
  intros Hne. rewrite <- (app_nil_r lines).
  now rewrite keep_alive_app by exact Hne.
Qed.

Lemma keep_alive_until (lines post : list string) :
  no_empty_read lines = true -> keep_alive (lines ++ "" :: post) = post.
Proof. intros Hne. now rewrite keep_alive_app by exact Hne. Qed.

End MinimalFacts.

(** ** Requests before any [initialize] *)


Section C1.
Context `{J : JsonModule}.
Import SimpleServer.

End C1.


(** ** The handshake *)

Lemma minimal_stdout_is_of_first_read `{J : JsonModule}
    (first : string) (rest : list string) :
  stdout_of (events (Minimal.main (first :: rest)))
  = stdout_of (events (Minimal.main [first])).
Proof.
  unfold Minimal.main, readline, then_keep_alive.
  now destruct (Minimal.handshake first) as [out [[]|e]].
Qed.

(** C2, as the spec words it, fails: [minimal.py] answers a valid
    [initialize] request only on its first read.  Given a [tools/list]
    request with id 1 and then an [initialize] request with id 2, it
    writes one line, the [initialize] response under id 1, and none under
    id 2; and after an [initialize] request a [tools/list] request gets no
    listing, so nothing like a Ready state is reached. *)
Lemma C2_minimal_answers_no_later_initialize :
  stdout_of (events (Minimal.main (J := ref)
                       [Lines.tools_list_1; Lines.initialize_2]))
  = [Lines.answer "1"]
  /\ ~ In (Lines.answer "2")
         (stdout_of (events (Minimal.main (J := ref)
                               [Lines.tools_list_1; Lines.initialize_2])))
  /\ stdout_of (events (Minimal.main (J := ref)
                          [Lines.initialize_1; Lines.tools_list_2]))
     = [Lines.answer "1"].
Proof.
  split; [reflexivity|]. split; [|reflexivity].
  intros [Heq|[]]. vm_compute in Heq. discriminate.
Qed.

Section C2.
Context `{J : JsonModule}.
Import SimpleServer.

(** C2, amended: an [initialize] request object with an id, wherever it
    stands in the input of [simple_server.py], is answered by one line, the
    encoding of the object with [jsonrpc] 2.0, the request's id as [id], and
    as [result] the protocol version 2024-11-05, the capabilities
    [{tools: {}}] and the server info (architecture-server, 1.0.0).
    [minimal.py] writes that line for the request on its first read only:
    on a later read the request adds nothing to its stdout.  No script
    records the handshake in a state: [simple_server.py] serves what
    follows the request as it serves it on its own. *)
Theorem C2_initialize_answered
    (pre : list string) (line : string) (rest : list string) (d : dict) :
  no_empty_read pre = true ->
  is_empty line = false ->
  loads (strip line) = Some (JObj d) ->
  dict_mem d "id" = true ->
  dict_get d "method" = JStr "initialize" ->
  let response :=
    JObj [("jsonrpc", JStr "2.0");
          ("id", dict_get d "id");
          ("result",
           JObj [("protocolVersion", JStr "2024-11-05");
                 ("capabilities", JObj [("tools", JObj [])]);
                 ("serverInfo", JObj [("name", JStr "architecture-server");
                                      ("version", JStr "1.0.0")])])] in
  events (main (pre ++ line :: rest))
  = events (main pre) ++ [Stdout (dumps response)] ++ fst (loop rest)
  /\ stdout_of (events (main (pre ++ line :: rest)))
     = stdout_of (events (main pre)) ++ [dumps response]
       ++ stdout_of (events (main rest))
  /\ (forall later : list string,
        loads line = Some (JObj d) ->
        stdout_of (events (Minimal.main (line :: later))) = [dumps response])
  /\ (forall (first : string) (before after : list string),
        stdout_of (events (Minimal.main (first :: before ++ line :: after)))
        = stdout_of (events (Minimal.main [first]))).
Proof.
  intros Hne Hl Hd Hid Hm response.
  assert (Hstep : step line = [Stdout (dumps response)]).
  { rewrite (simple_step_object line d Hd), Hm, Hid. reflexivity. }
  assert (Hrun : events (main (pre ++ line :: rest))
                 = events (main pre) ++ [Stdout (dumps response)]
                   ++ fst (loop rest)).
  { now rewrite simple_events_split, Hstep by assumption. }
  split; [exact Hrun|]. split; [|split].
  - assert (Hrest : stdout_of (events (main rest)) = stdout_of (fst (loop rest))).
    { unfold main. now destruct (loop rest). }
    now rewrite Hrun, Hrest, !stdout_of_app.
  - intros later Hraw.
    now rewrite (minimal_main_answers line later d Hraw Hid).
  - intros first before after. apply minimal_stdout_is_of_first_read.
Qed.
End C2.

Lemma C2_initialize_answered_witness :
  stdout_of (events (SimpleServer.main (J := ref)
                       ([Lines.garbage] ++ Lines.initialize_1 :: [Lines.tools_list_2])))
  = [Lines.answer "1";
     RefJson.ref_dumps (SimpleServer.tools_list_response (JInt 2))]
  /\ stdout_of (events (Minimal.main (J := ref)
                          (Lines.initialize_1 :: [Lines.tools_list_2])))
     = [Lines.answer "1"].
Proof.
  destruct (C2_initialize_answered (J := ref)
              [Lines.garbage] Lines.initialize_1 [Lines.tools_list_2]
              [("jsonrpc", JStr "2.0"); ("id", JInt 1);
               ("method", JStr "initialize"); ("params", JObj [])]
              eq_refl eq_refl eq_refl eq_refl eq_refl)
    as (_ & Hout & Hfirst & _).
  split.
  - rewrite Hout. reflexivity.
  - rewrite (Hfirst [Lines.tools_list_2] eq_refl). reflexivity.
Defined.

(** ** Methods the scripts do not know *)

(** C3, as the spec words it, fails: [simple_server.py], fed one request
    with id 7 and the method [resources/list], writes nothing to stdout. *)
Lemma C3_unknown_method_gets_no_answer :
  stdout_of (events (SimpleServer.main (J := ref) [Lines.resources_list_7])) = []
  /\ ~ answered_with_error (J := ref)
         (events (SimpleServer.main (J := ref) [Lines.resources_list_7])).
Proof.
  split; [reflexivity|].
  intros [l [Hout _]]. vm_compute in Hout. discriminate.
Qed.

Section C3.
Context `{J : JsonModule}.

(** C3, amended: a request object whose method is neither [initialize]
    nor [tools/list] ([tools/call] included) leaves no trace in
    [simple_server.py]: the run is the run without that line.  In
    [basic_server.py] a request object whose method is not [initialize]
    ([tools/list] included) gets one line on stderr, the log of its method
    (or, when it has no ["method"] member, of the [KeyError]), and adds
    nothing to stdout: stdout, exit and unread reads are those of the run
    without that line.  Neither script answers it, with a result or with an
    error. *)
Theorem C3_unknown_method_dropped
    (pre : list string) (line : string) (rest : list string) (d : dict) :
  no_empty_read pre = true ->
  is_empty line = false ->
  loads (strip line) = Some (JObj d) ->
  eq_str (dict_get d "method") "initialize" = false ->
  (eq_str (dict_get d "method") "tools/list" = false ->
   SimpleServer.main (pre ++ line :: rest) = SimpleServer.main (pre ++ rest))
  /\ events (BasicServer.main (pre ++ line :: rest))
     = events (BasicServer.main pre)
       ++ [Stderr (if dict_mem d "method"
                   then Received (dict_get d "method")
                   else Error (KeyError "method"))]
       ++ fst (BasicServer.loop rest)
  /\ stdout_of (events (BasicServer.main (pre ++ line :: rest)))
     = stdout_of (events (BasicServer.main (pre ++ rest)))
  /\ status (BasicServer.main (pre ++ line :: rest))
     = status (BasicServer.main (pre ++ rest))
  /\ unread (BasicServer.main (pre ++ line :: rest))
     = unread (BasicServer.main (pre ++ rest)).
Proof.
  intros Hne Hl Hd Hm.
  assert (Hstep : BasicServer.step line
                  = [Stderr (if dict_mem d "method"
                             then Received (dict_get d "method")
                             else Error (KeyError "method"))]).
  { rewrite (basic_step_object line d Hd), Hm.
    now destruct (dict_mem d "method"). }
  split; [|split; [|split; [|split]]].
  - intros Hm'. rewrite !simple_main_app by exact Hne.
    rewrite simple_loop_cons by exact Hl.
    now rewrite (simple_step_object line d Hd), Hm, Hm'.
  - rewrite basic_main_app by exact Hne.
    rewrite basic_loop_cons by exact Hl. now rewrite Hstep.
  - rewrite !basic_main_app by exact Hne.
    rewrite basic_loop_cons by exact Hl. rewrite Hstep. simpl.
    now rewrite !stdout_of_app.
  - now rewrite !basic_main_app by exact Hne.
  - rewrite !basic_main_app by exact Hne.
    now rewrite basic_loop_cons by exact Hl.
Qed.
End C3.

Lemma C3_unknown_method_dropped_witness :
  SimpleServer.main (J := ref)
    ([Lines.initialize_1] ++ Lines.resources_list_7 :: [Lines.tools_list_2])
  = SimpleServer.main (J := ref) ([Lines.initialize_1] ++ [Lines.tools_list_2])
  /\ events (BasicServer.main (J := ref)
               ([Lines.initialize_1] ++ Lines.resources_list_7 :: [Lines.tools_list_2]))
     = events (BasicServer.main (J := ref) [Lines.initialize_1])
       ++ [Stderr (Received (JStr "resources/list"))]
       ++ [Stderr (Received (JStr "tools/list"))].
Proof.
  destruct (C3_unknown_method_dropped (J := ref)
              [Lines.initialize_1] Lines.resources_list_7 [Lines.tools_list_2]
              [("jsonrpc", JStr "2.0"); ("id", JInt 7); ("method", JStr "resources/list")]
              eq_refl eq_refl eq_refl eq_refl) as (Hsimple & Hbasic & _).
  split; [exact (Hsimple eq_refl)|exact Hbasic].
Defined.

(** ** Tool handlers *)

Lemma dict_get_default_spec (d : dict) (key : string) (default : json) :
  dict_get_default d key default
  = if dict_mem d key then dict_get d key else default.
Proof.
  induction d as [|[k v] d IH]; simpl; [reflexivity|].
  now destruct (String.eqb k key).
Qed.

(** C4, as the spec words it, fails: [add_pattern] called with no
    arguments, both required ones missing, hands back a content block all
    the same. *)
Lemma C4_missing_arguments_not_rejected :
  missing pattern_schema [] = ["pattern_type"; "pattern_data"]
  /\ ServerFixed.call_tool RefJson.ref_str "add_pattern" []
     = Some [ {| type := "text"; text := "Pattern unknown added: " |} ]
  /\ returned_content (ServerFixed.call_tool RefJson.ref_str "add_pattern" []) = true.
Proof. repeat split. Qed.

Section C4.
Variable py_str : json -> string.
Import ServerFixed.

(** C4, amended: [call_tool] of [server_fixed.py] checks no argument
    against the schema.  For each tool of [list_tools] and any arguments
    it returns exactly one block of type [text], and raises nothing;
    [add_pattern] puts ["unknown"] for a missing [pattern_type] and the
    empty string for a missing [pattern_data]. *)
Theorem C4_call_tool_defaults (t : Tool) (arguments : dict) :
  In t list_tools ->
  (exists block,
      call_tool py_str (name t) arguments = Some [block]
      /\ type block = "text")
  /\ call_tool py_str "add_pattern" arguments
     = Some [ {| type := "text";
                 text := "Pattern "
                         ++ format py_str
                              (if dict_mem arguments "pattern_type"
                               then dict_get arguments "pattern_type"
                               else JStr "unknown")
                         ++ " added: "
                         ++ format py_str
                              (if dict_mem arguments "pattern_data"
                               then dict_get arguments "pattern_data"
                               else JStr "") |} ].
Proof.
  intros Hin. split.
  - destruct Hin as [<-|[<-|[]]]; simpl; eexists; split; reflexivity.
  - unfold call_tool, pattern_added. simpl.
    now rewrite !dict_get_default_spec.
Qed.
End C4.

Lemma C4_call_tool_defaults_witness :
  ServerFixed.call_tool RefJson.ref_str "add_pattern" [("pattern_data", JStr "layers")]
  = Some [ {| type := "text"; text := "Pattern unknown added: layers" |} ].
Proof.
  exact (proj2 (C4_call_tool_defaults RefJson.ref_str
                  {| name := "add_pattern";
                     description := "Add new architectural pattern";
                     inputSchema := pattern_schema |}
                  [("pattern_data", JStr "layers")]
                  (or_intror (or_introl eq_refl)))).
Defined.

(** C5, as the spec words it, fails: [echo] is no tool of [list_tools], and
    calling it returns [None]; no error is made of it. *)
Lemma C5_unregistered_tool_returns_none :
  find_tool ServerFixed.list_tools "echo" = None
  /\ ServerFixed.call_tool RefJson.ref_str "echo" [("text", JStr "hi")] = None
  /\ returned_content
       (ServerFixed.call_tool RefJson.ref_str "echo" [("text", JStr "hi")]) = false.
Proof. repeat split. Qed.

(** C5, amended: [call_tool] of [server_fixed.py] and of
    [working_server.py] returns no value ([None]) exactly for the names
    that [list_tools] does not list; it raises no error for them, and it is
    never given the request's id. *)
Theorem C5_call_tool_none_iff_unregistered
    (py_str : json -> string) (n : string) (arguments : dict) :
  (ServerFixed.call_tool py_str n arguments = None
   <-> find_tool ServerFixed.list_tools n = None)
  /\ (WorkingServer.call_tool py_str n arguments = None
      <-> find_tool WorkingServer.list_tools n = None).
Proof.
  unfold ServerFixed.call_tool, WorkingServer.call_tool, find_tool,
    ServerFixed.list_tools, WorkingServer.list_tools.
  cbn [find name].
  rewrite (String.eqb_sym "architecture_status" n), (String.eqb_sym "add_pattern" n).
  destruct (String.eqb n "architecture_status");
    [|destruct (String.eqb n "add_pattern")];
    repeat split; intros; try reflexivity; discriminate.
Qed.

(** ** Lines that are not JSON *)

Section Malformed.
Context `{J : JsonModule}.

(** X7: in [simple_server.py] and [basic_server.py] the decoding stands inside
    the [try]: a line that does not decode costs one line on stderr, and
    the rest of the input is served as before. *)
Lemma malformed_line_is_logged_and_skipped
    (pre : list string) (line : string) (rest : list string) :
  no_empty_read pre = true ->
  is_empty line = false ->
  loads (strip line) = None ->
  events (SimpleServer.main (pre ++ line :: rest))
  = events (SimpleServer.main pre)
    ++ [Stderr (Error JSONDecodeError)] ++ fst (SimpleServer.loop rest)
  /\ events (BasicServer.main (pre ++ line :: rest))
     = events (BasicServer.main pre)
       ++ [Stderr (Error JSONDecodeError)] ++ fst (BasicServer.loop rest).
Proof.
  intros Hne Hl Hd. split.
  - rewrite simple_events_split by assumption.
    now rewrite simple_step_malformed by exact Hd.
  - rewrite basic_main_app by exact Hne.
    rewrite basic_loop_cons by exact Hl.
    now rewrite basic_step_malformed by exact Hd.
Qed.
End Malformed.

(** C6: the claim holds of [simple_server.py] and [basic_server.py] (lemma
    [malformed_line_is_logged_and_skipped]) and breaks in
    [minimal_server.py] and [minimal.py], which decode their first line
    outside any [try].  On the input made of a line that is no JSON and then
    an [initialize] request, both die of [JSONDecodeError] with nothing on
    stdout and the request unread, where [simple_server.py] logs the first
    line and answers the second. *)
Theorem C6_malformed_first_line_kills_minimal_server :
  MinimalServer.main (J := ref) [Lines.garbage; Lines.initialize_1]
  = {| events := [Stderr (Text "Architecture MCP Server starting...")];
       status := Crashed JSONDecodeError;
       unread := [Lines.initialize_1] |}
  /\ Minimal.main (J := ref) [Lines.garbage; Lines.initialize_1]
     = {| events := [];
          status := Crashed JSONDecodeError;
          unread := [Lines.initialize_1] |}
  /\ SimpleServer.main (J := ref) [Lines.garbage; Lines.initialize_1]
     = {| events := [Stderr (Text "Architecture MCP Server starting");
                     Stderr (Error JSONDecodeError);
                     Stdout (RefJson.ref_dumps (initialize_response (JInt 1)))];
          status := Exited;
          unread := [] |}.
Proof. repeat split. Qed.

(** ** A second [initialize] *)

Section TwoRequests.
Context `{J : JsonModule}.
Import SimpleServer.

Lemma simple_events_two
    (pre : list string) (l1 : string) (mid : list string) (l2 : string)
    (rest : list string) :
  no_empty_read pre = true -> is_empty l1 = false ->
  no_empty_read mid = true -> is_empty l2 = false ->
  events (main (pre ++ l1 :: mid ++ l2 :: rest))
  = events (main pre) ++ step l1 ++ flat_map step mid
    ++ step l2 ++ fst (loop rest).
Proof.
  intros Hpre Hl1 Hmid Hl2.
  rewrite simple_events_split by assumption.
  rewrite (simple_loop_app mid (l2 :: rest) Hmid).
  rewrite simple_loop_cons by exact Hl2. reflexivity.
Qed.
End TwoRequests.

(** C7, as the spec words it, fails: [minimal.py], given two [initialize]
    requests, answers the first; the response to the second is never
    written. *)
Lemma C7_minimal_ignores_second_initialize :
  stdout_of (events (Minimal.main (J := ref) [Lines.initialize_1; Lines.initialize_2]))
  = [RefJson.ref_dumps (initialize_response (JInt 1))]
  /\ ~ In (RefJson.ref_dumps (initialize_response (JInt 2)))
         (stdout_of (events (Minimal.main (J := ref)
                               [Lines.initialize_1; Lines.initialize_2]))).
Proof.
  split; [reflexivity|].
  intros [Heq|[]]. vm_compute in Heq. discriminate.
Qed.

Section C7.
Context `{J : JsonModule}.
Import SimpleServer.

(** C7, amended: [simple_server.py] has no session state and no registry
    to reset.  Two [initialize] requests with ids, anywhere in its input,
    are both answered, with the same [result] under their own ids, and the
    lines between and after them are served as they would be otherwise.
    [minimal.py] answers its first line only: whatever follows, a second
    [initialize] included, adds nothing to stdout. *)
Theorem C7_initialize_again
    (pre : list string) (l1 : string) (mid : list string) (l2 : string)
    (rest : list string) (d1 d2 : dict) :
  no_empty_read pre = true -> is_empty l1 = false ->
  no_empty_read mid = true -> is_empty l2 = false ->
  loads (strip l1) = Some (JObj d1) -> dict_mem d1 "id" = true ->
  dict_get d1 "method" = JStr "initialize" ->
  loads (strip l2) = Some (JObj d2) -> dict_mem d2 "id" = true ->
  dict_get d2 "method" = JStr "initialize" ->
  let first := initialize_response (dict_get d1 "id") in
  let second := initialize_response (dict_get d2 "id") in
  events (main (pre ++ l1 :: mid ++ l2 :: rest))
  = events (main pre) ++ [Stdout (dumps first)] ++ flat_map step mid
    ++ [Stdout (dumps second)] ++ fst (loop rest)
  /\ getitem second "result" = getitem first "result"
  /\ (forall (line : string) (d : dict) (later : list string),
        loads line = Some (JObj d) -> dict_mem d "id" = true ->
        stdout_of (events (Minimal.main (line :: later)))
        = [dumps (initialize_response (dict_get d "id"))]).
Proof.
  intros Hpre Hl1 Hmid Hl2 Hd1 Hid1 Hm1 Hd2 Hid2 Hm2 first second.
  repeat split.
  - rewrite simple_events_two by assumption.
    rewrite (simple_step_object l1 d1 Hd1), Hm1, Hid1.
    now rewrite (simple_step_object l2 d2 Hd2), Hm2, Hid2.
  - intros line d later Hd Hid.
    now rewrite (minimal_main_answers line later d Hd Hid).
Qed.
End C7.

Lemma C7_initialize_again_witness :
  stdout_of (events (SimpleServer.main (J := ref)
     ([] ++ Lines.initialize_1 :: [Lines.tools_list_2] ++ Lines.initialize_2 :: [])))
  = [RefJson.ref_dumps (initialize_response (JInt 1));
     RefJson.ref_dumps (SimpleServer.tools_list_response (JInt 2));
     RefJson.ref_dumps (initialize_response (JInt 2))].
Proof.
  destruct (C7_initialize_again (J := ref)
              [] Lines.initialize_1 [Lines.tools_list_2] Lines.initialize_2 []
              [("jsonrpc", JStr "2.0"); ("id", JInt 1);
               ("method", JStr "initialize"); ("params", JObj [])]
              [("jsonrpc", JStr "2.0"); ("id", JInt 2);
               ("method", JStr "initialize"); ("params", JObj [])]
              eq_refl eq_refl eq_refl eq_refl eq_refl
              eq_refl eq_refl eq_refl eq_refl eq_refl) as (Hrun & _ & _).
  rewrite Hrun. reflexivity.
Defined.

(** ** The tool listing *)

Section C8.
Context `{J : JsonModule}.
Import SimpleServer.

(** C8: two [tools/list] requests with ids, anywhere in the input of
    [simple_server.py] (after an [initialize] or not), are both answered,
    each under its own id and with the same [tools] sequence.  The
    listing of [server_fixed.py] is the fixed sequence
    [architecture_status], [add_pattern]: the order of the source, which
    is not the alphabetical one. *)
Theorem C8_tools_list_is_stable
    (pre : list string) (l1 : string) (mid : list string) (l2 : string)
    (rest : list string) (d1 d2 : dict) :
  no_empty_read pre = true -> is_empty l1 = false ->
  no_empty_read mid = true -> is_empty l2 = false ->
  loads (strip l1) = Some (JObj d1) -> dict_mem d1 "id" = true ->
  dict_get d1 "method" = JStr "tools/list" ->
  loads (strip l2) = Some (JObj d2) -> dict_mem d2 "id" = true ->
  dict_get d2 "method" = JStr "tools/list" ->
  let first := tools_list_response (dict_get d1 "id") in
  let second := tools_list_response (dict_get d2 "id") in
  events (main (pre ++ l1 :: mid ++ l2 :: rest))
  = events (main pre) ++ [Stdout (dumps first)] ++ flat_map step mid
    ++ [Stdout (dumps second)] ++ fst (loop rest)
  /\ getitem first "result" = ret (JObj [("tools", tools)])
  /\ getitem second "result" = ret (JObj [("tools", tools)])
  /\ map name (ServerFixed.list_tools) = ["architecture_status"; "add_pattern"]
  /\ String.ltb "add_pattern" "architecture_status" = true.
Proof.
  intros Hpre Hl1 Hmid Hl2 Hd1 Hid1 Hm1 Hd2 Hid2 Hm2 first second.
  repeat split.
  rewrite simple_events_two by assumption.
  rewrite (simple_step_object l1 d1 Hd1), Hm1, Hid1.
  now rewrite (simple_step_object l2 d2 Hd2), Hm2, Hid2.
Qed.
End C8.

Lemma C8_tools_list_is_stable_witness :
  stdout_of (events (SimpleServer.main (J := ref)
     ([Lines.initialize_1] ++ Lines.tools_list_2 :: [Lines.ping_5]
        ++ Lines.tools_list_3 :: [])))
  = [RefJson.ref_dumps (initialize_response (JInt 1));
     RefJson.ref_dumps (SimpleServer.tools_list_response (JInt 2));
     RefJson.ref_dumps (SimpleServer.tools_list_response (JInt 3))].
Proof.
  destruct (C8_tools_list_is_stable (J := ref)
              [Lines.initialize_1] Lines.tools_list_2 [Lines.ping_5]
              Lines.tools_list_3 []
              [("jsonrpc", JStr "2.0"); ("id", JInt 2); ("method", JStr "tools/list")]
              [("jsonrpc", JStr "2.0"); ("id", JInt 3); ("method", JStr "tools/list")]
              eq_refl eq_refl eq_refl eq_refl eq_refl
              eq_refl eq_refl eq_refl eq_refl eq_refl) as (Hrun & _).
  rewrite Hrun. reflexivity.
Defined.

(** ** End of stream *)

Section EndOfStream.
Context `{J : JsonModule}.

(** Where the scripts test the line they read: at the first empty read the
    loop of [basic_server.py] and the closing loop of [minimal.py] end and
    [main] returns, with nothing printed past the events of the lines read
    so far and the reads after the empty one never made. *)
Lemma loop_ends_at_empty_read (lines post : list string) :
  no_empty_read lines = true ->
  BasicServer.main (lines ++ "" :: post)
  = {| events := Stderr (Text "Architecture server starting")
                 :: flat_map BasicServer.step lines;
       status := Exited;
       unread := post |}
  /\ BasicServer.main lines
     = {| events := Stderr (Text "Architecture server starting")
                    :: flat_map BasicServer.step lines;
          status := Exited;
          unread := [] |}
  /\ (forall (first : string) (d : dict),
        loads first = Some (JObj d) ->
        dict_mem d "id" = true ->
        let answer := Stdout (dumps (initialize_response (dict_get d "id"))) in
        Minimal.main (first :: lines ++ "" :: post)
        = {| events := [answer]; status := Exited; unread := post |}
        /\ Minimal.main (first :: lines)
           = {| events := [answer]; status := Exited; unread := [] |}).
Proof.
  intros Hne.
  assert (Hall : BasicServer.main lines
                 = {| events := Stderr (Text "Architecture server starting")
                                :: flat_map BasicServer.step lines;
                      status := Exited;
                      unread := [] |}).
  { unfold BasicServer.main. now rewrite (basic_loop_all lines Hne). }
  split; [|split].
  - rewrite (basic_main_app lines ("" :: post) Hne), Hall. simpl.
    now rewrite app_nil_r.
  - exact Hall.
  - intros first d Hd Hid answer.
    rewrite !(minimal_main_answers first _ d Hd Hid).
    now rewrite (keep_alive_until lines post Hne), (keep_alive_all lines Hne).
Qed.

(** The first read of [minimal.py] and [minimal_server.py] is decoded
    untested: with a decoder that refuses the empty string, as
    [json.loads] does, the end of the stream at the first read ends the
    process with [JSONDecodeError]. *)
Lemma minimal_dies_of_empty_first_read (post : list string) :
  loads "" = None ->
  Minimal.main [] = {| events := []; status := Crashed JSONDecodeError; unread := [] |}
  /\ Minimal.main ("" :: post)
     = {| events := []; status := Crashed JSONDecodeError; unread := post |}
  /\ MinimalServer.main ("" :: post)
     = {| events := [Stderr (Text "Architecture MCP Server starting...")];
          status := Crashed JSONDecodeError;
          unread := post |}.
Proof.
  intros Hd. destruct (minimal_main_crashes "" post Hd) as [Hm Hs].
  destruct (minimal_main_crashes "" [] Hd) as [Hm' _].
  split; [exact Hm'|]. split; [exact Hm|exact Hs].
Qed.

End EndOfStream.

(** C9: the claim holds of the loop of [basic_server.py] and of the closing
    loop of [minimal.py] (lemma [loop_ends_at_empty_read]) and breaks at the
    first read of [minimal.py] and [minimal_server.py], which is decoded
    without the test for the empty string.  On an empty input, and on an
    input whose first read is empty, both die of [JSONDecodeError] in place
    of returning, where [basic_server.py] and [simple_server.py] return
    with nothing but their banner written. *)
Theorem C9_end_of_stream_at_first_read_kills_minimal :
  Minimal.main (J := ref) []
  = {| events := []; status := Crashed JSONDecodeError; unread := [] |}
  /\ MinimalServer.main (J := ref) []
     = {| events := [Stderr (Text "Architecture MCP Server starting...")];
          status := Crashed JSONDecodeError;
          unread := [] |}
  /\ Minimal.main (J := ref) [""; Lines.initialize_1]
     = {| events := [];
          status := Crashed JSONDecodeError;
          unread := [Lines.initialize_1] |}
  /\ BasicServer.main (J := ref) []
     = {| events := [Stderr (Text "Architecture server starting")];
          status := Exited;
          unread := [] |}
  /\ SimpleServer.main (J := ref) []
     = {| events := [Stderr (Text "Architecture MCP Server starting")];
          status := Exited;
          unread := [] |}.
Proof.
  destruct (minimal_dies_of_empty_first_read (J := ref) [Lines.initialize_1] eq_refl)
    as (Hnone & Hfirst & _).
  split; [exact Hnone|]. split; [reflexivity|]. split; [exact Hfirst|].
  split; reflexivity.
Qed.

(** ** The first line of minimal.py *)

Section C10.
Context `{J : JsonModule}.

(** C10: when the first line read by [minimal.py] or [minimal_server.py]
    decodes to an object with an ["id"] key, whatever its method, the
    whole run writes one line to stdout: the encoding of the object with
    [jsonrpc] 2.0, that id as [id], and as [result] the protocol version
    2024-11-05, the capabilities [{tools: {}}] and the server info
    (architecture-server, 1.0.0).  Every later line is read up to the end
    of the stream, and none of them adds a line to stdout. *)
Theorem C10_minimal_answers_first_line_only
    (first : string) (d : dict) (lines post : list string) :
  loads first = Some (JObj d) ->
  dict_mem d "id" = true ->
  no_empty_read lines = true ->
  let answer :=
    dumps (JObj [("jsonrpc", JStr "2.0");
                ("id", dict_get d "id");
                ("result",
                 JObj [("protocolVersion", JStr "2024-11-05");
                       ("capabilities", JObj [("tools", JObj [])]);
                       ("serverInfo",
                        JObj [("name", JStr "architecture-server");
                              ("version", JStr "1.0.0")])])]) in
  (stdout_of (events (Minimal.main (first :: lines))) = [answer]
   /\ status (Minimal.main (first :: lines)) = Exited
   /\ unread (Minimal.main (first :: lines)) = []
   /\ Minimal.main (first :: lines ++ "" :: post)
      = {| events := [Stdout answer]; status := Exited; unread := post |})
  /\ (stdout_of (events (MinimalServer.main (first :: lines))) = [answer]
      /\ status (MinimalServer.main (first :: lines)) = Exited
      /\ unread (MinimalServer.main (first :: lines)) = []
      /\ MinimalServer.main (first :: lines ++ "" :: post)
         = {| events := [Stderr (Text "Architecture MCP Server starting...");
                         Stdout answer;
                         Stderr (Text "Server initialized")];
              status := Exited;
              unread := post |}).
Proof.
  intros Hd Hid Hne answer.
  rewrite !(minimal_main_answers first _ d Hd Hid).
  rewrite !(minimal_server_main_answers first _ d Hd Hid).
  rewrite (keep_alive_all lines Hne), (keep_alive_until lines post Hne).
  repeat split.
Qed.
End C10.

Lemma C10_minimal_answers_first_line_only_witness :
  stdout_of (events (Minimal.main (J := ref)
     [Lines.tools_list_3; Lines.initialize_1; Lines.garbage]))
  = [Lines.answer "3"]
  /\ MinimalServer.main (J := ref)
       ([Lines.tools_list_3; Lines.initialize_1; Lines.garbage]
          ++ "" :: [Lines.initialize_2])
     = {| events := [Stderr (Text "Architecture MCP Server starting...");
                     Stdout (Lines.answer "3");
                     Stderr (Text "Server initialized")];
          status := Exited;
          unread := [Lines.initialize_2] |}.
Proof.
  destruct (C10_minimal_answers_first_line_only (J := ref)
              Lines.tools_list_3
              [("jsonrpc", JStr "2.0"); ("id", JInt 3); ("method", JStr "tools/list")]
              [Lines.initialize_1; Lines.garbage] [Lines.initialize_2]
              eq_refl eq_refl eq_refl)
    as ((Hout & _) & (_ & _ & _ & Hserver)).
  split; [exact Hout|exact Hserver].
Defined.


(** * Further properties of the scripts *)

(** ** What the two serving loops read and write *)

Lemma before_eof_no_empty_read (reads : list string) :
  no_empty_read (before_eof reads) = true.
Proof.
  induction reads as [|l reads IH]; simpl; [reflexivity|].
  destruct (is_empty l) eqn:Hl; simpl; [reflexivity|].
  now rewrite Hl, IH.
Qed.

Lemma before_eof_split (reads : list string) :
  reads = before_eof reads /\ keep_alive reads = []
  \/ reads = before_eof reads ++ "" :: keep_alive reads.
Proof.
  induction reads as [|l reads IH]; simpl; [now left|].
  destruct l as [|c l]; simpl; [now right|].
  destruct IH as [[IH Hnil]|IH]; [left; split; [|exact Hnil]|right];
    now rewrite <- IH.
Qed.

Lemma eq_str_true (v : json) (s : string) : eq_str v s = true -> v = JStr s.
Proof.
  destruct v; simpl; try discriminate.
  intros H. apply String.eqb_eq in H. now subst.
Qed.

Section Loops.
Context `{J : JsonModule}.

Lemma simple_loop_serves (reads : list string) :
  SimpleServer.loop reads
  = (flat_map SimpleServer.step (before_eof reads), keep_alive reads).
Proof.
  induction reads as [|l reads IH]; simpl; [reflexivity|].
  destruct (is_empty l); [reflexivity|]. now rewrite IH.
Qed.

Lemma basic_loop_serves (reads : list string) :
  BasicServer.loop reads
  = (flat_map BasicServer.step (before_eof reads), keep_alive reads).
Proof.
  induction reads as [|l reads IH]; simpl; [reflexivity|].
  destruct (is_empty l); [reflexivity|]. now rewrite IH.
Qed.

(** X9: whatever the reads, [simple_server.py] and [basic_server.py] serve
    exactly the lines before the first empty read, each in turn, then
    return: either no read is empty, all of them are served and none is
    left unread, or the reads are the served lines, none of them empty,
    then the empty read, then the unread ones, left as they were. *)
Theorem X9_loops_stop_at_first_empty_read (reads : list string) :
  exists served : list string,
    no_empty_read served = true
    /\ (reads = served /\ unread (SimpleServer.main reads) = []
        \/ reads = served ++ "" :: unread (SimpleServer.main reads))
    /\ unread (BasicServer.main reads) = unread (SimpleServer.main reads)
    /\ events (SimpleServer.main reads)
       = Stderr (Text "Architecture MCP Server starting")
         :: flat_map SimpleServer.step served
    /\ events (BasicServer.main reads)
       = Stderr (Text "Architecture server starting")
         :: flat_map BasicServer.step served
    /\ status (SimpleServer.main reads) = Exited
    /\ status (BasicServer.main reads) = Exited.
Proof.
  exists (before_eof reads).
  unfold SimpleServer.main, BasicServer.main.
  rewrite simple_loop_serves, basic_loop_serves. simpl.
  split; [apply before_eof_no_empty_read|].
  split; [apply before_eof_split|]. repeat split.
Qed.

(** X1: responses come out in the order of the requests, and a part of the
    input is served the same whatever came before it: for input [a] without
    an empty read followed by input [b], the stdout of each script is its
    stdout on [a] followed by its stdout on [b], and what stays unread is
    what stays unread of [b]. *)
Theorem X1_stdout_of_concatenated_input (a b : list string) :
  no_empty_read a = true ->
  (stdout_of (events (SimpleServer.main (a ++ b)))
   = stdout_of (events (SimpleServer.main a))
     ++ stdout_of (events (SimpleServer.main b))
   /\ unread (SimpleServer.main (a ++ b)) = unread (SimpleServer.main b))
  /\ (stdout_of (events (BasicServer.main (a ++ b)))
      = stdout_of (events (BasicServer.main a))
        ++ stdout_of (events (BasicServer.main b))
      /\ unread (BasicServer.main (a ++ b)) = unread (BasicServer.main b)).
Proof.
  intros Hne. split.
  - rewrite (simple_main_app a b Hne). unfold SimpleServer.main.
    destruct (SimpleServer.loop b) as [evs left].
    destruct (SimpleServer.loop a) as [evs' left']. simpl.
    now rewrite stdout_of_app.
  - rewrite (basic_main_app a b Hne). unfold BasicServer.main.
    destruct (BasicServer.loop b) as [evs left].
    destruct (BasicServer.loop a) as [evs' left']. simpl.
    now rewrite stdout_of_app.
Qed.

End Loops.

Lemma X1_stdout_of_concatenated_input_witness :
  stdout_of (events (SimpleServer.main (J := ref)
     ([Lines.tools_list_1; Lines.garbage] ++ [Lines.initialize_2; ""; Lines.ping_5])))
  = [RefJson.ref_dumps (SimpleServer.tools_list_response (JInt 1))]
    ++ [RefJson.ref_dumps (initialize_response (JInt 2))]
  /\ unread (SimpleServer.main (J := ref)
       ([Lines.tools_list_1; Lines.garbage] ++ [Lines.initialize_2; ""; Lines.ping_5]))
     = [Lines.ping_5].
Proof.
  exact (proj1 (X1_stdout_of_concatenated_input (J := ref)
                  [Lines.tools_list_1; Lines.garbage]
                  [Lines.initialize_2; ""; Lines.ping_5] eq_refl)).
Defined.

(** ** What reaches stdout *)

Section Stdout.
Context `{J : JsonModule}.

Lemma simple_step_stdout (line : string) :
  stdout_of (SimpleServer.step line) = []
  \/ exists l, stdout_of (SimpleServer.step line) = [l] /\ simple_answer_to line l.
Proof.
  destruct (loads (strip line)) as [v|] eqn:Hd.
  - destruct v as [| | | | |items|d];
      try (left; unfold SimpleServer.step, SimpleServer.handle, json_loads;
           rewrite Hd; reflexivity).
    rewrite (simple_step_object line d Hd).
    destruct (eq_str (dict_get d "method") "initialize") eqn:Hm;
      [|destruct (eq_str (dict_get d "method") "tools/list") eqn:Hm'];
      try (now left);
      (destruct (dict_mem d "id") eqn:Hid; [right|now left]);
      eexists; (split; [reflexivity|]); exists d; repeat split; trivial.
    + left. split; [now apply eq_str_true|reflexivity].
    + right. split; [now apply eq_str_true|reflexivity].
  - left. now rewrite (simple_step_malformed line Hd).
Qed.

Lemma basic_step_stdout (line : string) :
  stdout_of (BasicServer.step line) = []
  \/ exists l, stdout_of (BasicServer.step line) = [l] /\ basic_answer_to line l.
Proof.
  destruct (loads (strip line)) as [v|] eqn:Hd.
  - destruct v as [| | | | |items|d];
      try (left; unfold BasicServer.step, BasicServer.handle, json_loads;
           rewrite Hd; reflexivity).
    rewrite (basic_step_object line d Hd).
    destruct (dict_mem d "method"); [|now left].
    destruct (eq_str (dict_get d "method") "initialize") eqn:Hm; [|now left].
    destruct (dict_mem d "id") eqn:Hid; [right|now left].
    eexists; split; [reflexivity|]. exists d. repeat split; trivial.
    now apply eq_str_true.
  - left. now rewrite (basic_step_malformed line Hd).
Qed.


(** X3: [basic_server.py] answers [initialize] and nothing else.  On any
    input, every line of its stdout is the encoding of an [initialize]
    response under the id of an [initialize] request among the lines read;
    a [tools/list] request never gets a tool listing from it. *)
Theorem X3_basic_server_stdout_is_initialize_only (reads : list string) :
  Forall (fun l => exists line, In line reads /\ basic_answer_to line l)
         (stdout_of (events (BasicServer.main reads))).
Proof.
  unfold BasicServer.main. rewrite basic_loop_serves. simpl.
  induction reads as [|r reads IH]; simpl; [constructor|].
  destruct (is_empty r); simpl; [constructor|].
  rewrite stdout_of_app. apply Forall_app. split.
  - destruct (basic_step_stdout r) as [->|[l [-> Hl]]]; constructor;
      [|constructor].
    exists r. split; [now left|exact Hl].
  - eapply Forall_impl; [|exact IH].
    intros l [line [Hin Hl]]. exists line. split; [now right|exact Hl].
Qed.

Lemma flat_map_stdout_bound (step : string -> list event) (lines : list string) :
  (forall line, length (stdout_of (step line)) <= 1) ->
  length (stdout_of (flat_map step lines)) <= length lines.
Proof.
  intros Hstep. induction lines as [|l lines IH]; simpl; [constructor|].
  rewrite stdout_of_app, length_app. specialize (Hstep l). lia.
Qed.

Lemma before_eof_length (reads : list string) :
  length (before_eof reads) <= length reads.
Proof.
  induction reads as [|l reads IH]; simpl; [constructor|].
  destruct (is_empty l); simpl; lia.
Qed.

(** X4: neither script writes more than one line to stdout for a line it
    reads: on any input the number of stdout lines is at most the number of
    reads. *)
Theorem X4_at_most_one_answer_per_line (reads : list string) :
  length (stdout_of (events (SimpleServer.main reads))) <= length reads
  /\ length (stdout_of (events (BasicServer.main reads))) <= length reads.
Proof.
  unfold SimpleServer.main, BasicServer.main.
  rewrite simple_loop_serves, basic_loop_serves. simpl.
  pose proof (before_eof_length reads) as Hlen. split.
  - etransitivity; [apply flat_map_stdout_bound|exact Hlen].
    intros line. destruct (simple_step_stdout line) as [->|[l [-> _]]];
      simpl; lia.
  - etransitivity; [apply flat_map_stdout_bound|exact Hlen].
    intros line. destruct (basic_step_stdout line) as [->|[l [-> _]]];
      simpl; lia.
Qed.

End Stdout.

Lemma X7_malformed_line_witness :
  events (SimpleServer.main (J := ref)
            ([Lines.tools_list_1] ++ Lines.garbage :: [Lines.initialize_2]))
  = events (SimpleServer.main (J := ref) [Lines.tools_list_1])
    ++ [Stderr (Error JSONDecodeError)]
    ++ [Stdout (RefJson.ref_dumps (initialize_response (JInt 2)))].
Proof.
  exact (proj1 (malformed_line_is_logged_and_skipped (J := ref)
                  [Lines.tools_list_1] Lines.garbage [Lines.initialize_2]
                  eq_refl eq_refl eq_refl)).
Defined.

(** ** Requests that miss a member, and values that are no requests *)

Lemma dict_get_absent (d : dict) (key : string) :
  dict_mem d key = false -> dict_get d key = JNull.
Proof.
  induction d as [|[k v] d IH]; simpl; [reflexivity|].
  destruct (String.eqb k key); simpl; [discriminate|exact IH].
Qed.

Lemma dict_get_str_mem (d : dict) (key s : string) :
  dict_get d key = JStr s -> dict_mem d key = true.
Proof.
  intros Hget. destruct (dict_mem d key) eqn:Hmem; [reflexivity|].
  rewrite (dict_get_absent d key Hmem) in Hget. discriminate.
Qed.

Section ErrorLines.
Context `{J : JsonModule}.

Lemma basic_events_split (pre : list string) (line : string) (rest : list string) :
  no_empty_read pre = true -> is_empty line = false ->
  events (BasicServer.main (pre ++ line :: rest))
  = events (BasicServer.main pre) ++ BasicServer.step line
    ++ fst (BasicServer.loop rest).
Proof.
  intros Hne Hl. rewrite basic_main_app by exact Hne.
  rewrite basic_loop_cons by exact Hl. reflexivity.
Qed.

(** X5: a request without an id is not answered but reported on stderr as
    the [KeyError] of the subscript that failed.  In [simple_server.py]
    this holds for [initialize] and for [tools/list]; in [basic_server.py]
    for [initialize], after the method has been logged, and an object
    without a ["method"] member is reported as [KeyError] on that key. *)
Theorem X5_missing_member_is_a_logged_key_error
    (pre : list string) (line : string) (rest : list string) (d : dict) :
  no_empty_read pre = true ->
  is_empty line = false ->
  loads (strip line) = Some (JObj d) ->
  (dict_mem d "id" = false ->
   dict_get d "method" = JStr "initialize"
   \/ dict_get d "method" = JStr "tools/list" ->
   events (SimpleServer.main (pre ++ line :: rest))
   = events (SimpleServer.main pre)
     ++ [Stderr (Error (KeyError "id"))] ++ fst (SimpleServer.loop rest))
  /\ (dict_mem d "id" = false ->
      dict_get d "method" = JStr "initialize" ->
      events (BasicServer.main (pre ++ line :: rest))
      = events (BasicServer.main pre)
        ++ [Stderr (Received (JStr "initialize"));
            Stderr (Error (KeyError "id"))]
        ++ fst (BasicServer.loop rest))
  /\ (dict_mem d "method" = false ->
      events (BasicServer.main (pre ++ line :: rest))
      = events (BasicServer.main pre)
        ++ [Stderr (Error (KeyError "method"))] ++ fst (BasicServer.loop rest)).
Proof.
  intros Hne Hl Hd. repeat split.
  - intros Hid Hm. rewrite simple_events_split by assumption.
    rewrite (simple_step_object line d Hd), Hid.
    now destruct Hm as [-> | ->].
  - intros Hid Hm. rewrite basic_events_split by assumption.
    rewrite (basic_step_object line d Hd), Hid, Hm.
    now rewrite (dict_get_str_mem d "method" "initialize" Hm).
  - intros Hm. rewrite basic_events_split by assumption.
    now rewrite (basic_step_object line d Hd), Hm.
Qed.

(** X6: a line that decodes to something other than an object (a list, a
    number, a string, [null]) is not answered: [simple_server.py] reports
    the [AttributeError] of its [.get], [basic_server.py] the [TypeError] of
    its subscript, and both go on with the next line. *)
Theorem X6_non_object_is_a_logged_error
    (pre : list string) (line : string) (rest : list string) (v : json) :
  no_empty_read pre = true ->
  is_empty line = false ->
  loads (strip line) = Some v ->
  is_object v = false ->
  events (SimpleServer.main (pre ++ line :: rest))
  = events (SimpleServer.main pre)
    ++ [Stderr (Error AttributeError)] ++ fst (SimpleServer.loop rest)
  /\ events (BasicServer.main (pre ++ line :: rest))
     = events (BasicServer.main pre)
       ++ [Stderr (Error TypeError)] ++ fst (BasicServer.loop rest).
Proof.
  intros Hne Hl Hd Hv. split.
  - rewrite simple_events_split by assumption.
    unfold SimpleServer.step, SimpleServer.handle, json_loads. rewrite Hd.
    now destruct v.
  - rewrite basic_events_split by assumption.
    unfold BasicServer.step, BasicServer.handle, json_loads. rewrite Hd.
    now destruct v.
Qed.

End ErrorLines.

Lemma X5_missing_member_is_a_logged_key_error_witness :
  events (SimpleServer.main (J := ref)
            ([] ++ line_of "{'jsonrpc':'2.0','method':'initialize'}"
                :: [Lines.tools_list_2]))
  = events (SimpleServer.main (J := ref) [])
    ++ [Stderr (Error (KeyError "id"))]
    ++ [Stdout (RefJson.ref_dumps (SimpleServer.tools_list_response (JInt 2)))].
Proof.
  exact (proj1 (X5_missing_member_is_a_logged_key_error (J := ref)
                  [] (line_of "{'jsonrpc':'2.0','method':'initialize'}")
                  [Lines.tools_list_2]
                  [("jsonrpc", JStr "2.0"); ("method", JStr "initialize")]
                  eq_refl eq_refl eq_refl)
           eq_refl (or_introl eq_refl)).
Defined.

Lemma X6_non_object_is_a_logged_error_witness :
  events (BasicServer.main (J := ref)
            ([Lines.initialize_1] ++ line_of "[1, 2]" :: []))
  = events (BasicServer.main (J := ref) [Lines.initialize_1])
    ++ [Stderr (Error TypeError)] ++ [].
Proof.
  exact (proj2 (X6_non_object_is_a_logged_error (J := ref)
                  [Lines.initialize_1] (line_of "[1, 2]") []
                  (JArr [JInt 1; JInt 2])
                  eq_refl eq_refl eq_refl eq_refl)).
Defined.

(** ** How minimal.py and minimal_server.py end *)

Section MinimalEnds.
Context `{J : JsonModule}.

Lemma then_keep_alive_ends (body : io unit) (rest : list string) (answer : string) :
  (snd body = Ok tt /\ stdout_of (fst body) = [answer]
   \/ (exists e, snd body = Raise e
                 /\ (e = JSONDecodeError \/ e = TypeError \/ e = KeyError "id"))
      /\ stdout_of (fst body) = []) ->
  let r := then_keep_alive body rest in
  (status r = Exited <-> exists l, stdout_of (events r) = [l])
  /\ (forall e, status r = Crashed e ->
        stdout_of (events r) = [] /\ unread r = rest
        /\ (e = JSONDecodeError \/ e = TypeError \/ e = KeyError "id")).
Proof.
  destruct body as [out [[]|e]]; simpl;
    intros [[Hok Hout]|[[e' [Hraise He]] Hout]]; try discriminate.
  - split; [split; [now exists answer|reflexivity]|discriminate].
  - injection Hraise as <-. rewrite Hout. split.
    + split; [discriminate|]. intros [l Hl]. discriminate.
    + intros e0 [= <-]. now repeat split.
Qed.

(** X8: [minimal.py] and [minimal_server.py] end in one of two ways,
    whatever they are given, an empty input included.  Either [main]
    returns, and then stdout holds exactly one line; or an exception leaves
    [main], and then stdout is empty, no read after the first was made, and
    the exception is the decoder's, the [TypeError] of subscripting a value
    that is no object, or the [KeyError] of a missing ["id"]. *)
Theorem X8_minimal_answers_or_crashes (reads : list string) :
  ((status (Minimal.main reads) = Exited
    <-> exists l, stdout_of (events (Minimal.main reads)) = [l])
   /\ (forall e, status (Minimal.main reads) = Crashed e ->
         stdout_of (events (Minimal.main reads)) = []
         /\ unread (Minimal.main reads) = tl reads
         /\ (e = JSONDecodeError \/ e = TypeError \/ e = KeyError "id")))
  /\ ((status (MinimalServer.main reads) = Exited
       <-> exists l, stdout_of (events (MinimalServer.main reads)) = [l])
      /\ (forall e, status (MinimalServer.main reads) = Crashed e ->
            stdout_of (events (MinimalServer.main reads)) = []
            /\ unread (MinimalServer.main reads) = tl reads
            /\ (e = JSONDecodeError \/ e = TypeError \/ e = KeyError "id"))).
Proof.
  assert (Hrest : snd (readline reads) = tl reads) by now destruct reads.
  unfold Minimal.main, MinimalServer.main.
  destruct (readline reads) as [line rest]. simpl in Hrest. subst rest.
  split;
    apply then_keep_alive_ends
      with (answer := dumps (initialize_response
                               (match loads line with
                                | Some (JObj d) => dict_get d "id"
                                | _ => JNull
                                end)));
    unfold Minimal.handshake, MinimalServer.handshake, json_loads;
    (destruct (loads line) as [v|]; [destruct v as [| | | | |items|d]|]);
    simpl.
  all: try (right; split; [eexists; split; [reflexivity|tauto]|reflexivity]).
  all: destruct (dict_mem d "id"); simpl;
    [left; split; reflexivity
    |right; split; [eexists; split; [reflexivity|tauto]|reflexivity]].
Qed.

End MinimalEnds.

(** ** Whitespace around a request *)

Section Strip.
Local Open Scope string_scope.

Lemma lstrip_pad (a s : string) :
  all_space a = true -> lstrip (a ++ s) = lstrip s.
Proof.
  induction a as [|c a IH]; simpl; intros Ha; [reflexivity|].
  apply andb_prop in Ha as [Hc Ha]. rewrite Hc. now apply IH.
Qed.

Lemma lstrip_all_space (b : string) : all_space b = true -> lstrip b = "".
Proof.
  induction b as [|c b IH]; simpl; intros Hb; [reflexivity|].
  apply andb_prop in Hb as [Hc Hb]. rewrite Hc. now apply IH.
Qed.

Lemma rstrip_all_space (b : string) : all_space b = true -> rstrip b = "".
Proof.
  induction b as [|c b IH]; simpl; intros Hb; [reflexivity|].
  apply andb_prop in Hb as [Hc Hb]. now rewrite (IH Hb), Hc.
Qed.

Lemma rstrip_pad (s b : string) :
  all_space b = true -> rstrip (s ++ b) = rstrip s.
Proof.
  intros Hb. induction s as [|c s IH]; simpl.
  - now apply rstrip_all_space.
  - now rewrite IH.
Qed.

Lemma strip_pad_right (s b : string) :
  all_space b = true -> strip (s ++ b) = strip s.
Proof.
  intros Hb. unfold strip. induction s as [|c s IH]; simpl.
  - now rewrite (lstrip_all_space b Hb).
  - destruct (isspace c); [exact IH|].
    change (String c (s ++ b)) with (String c s ++ b).
    now apply rstrip_pad.
Qed.

Lemma strip_pad (a s b : string) :
  all_space a = true -> all_space b = true -> strip (a ++ s ++ b) = strip s.
Proof.
  intros Ha Hb. rewrite <- (strip_pad_right s b Hb).
  unfold strip. now rewrite lstrip_pad.
Qed.

Lemma is_empty_pad (a s b : string) :
  is_empty s = false -> is_empty (a ++ s ++ b) = false.
Proof. destruct a; [destruct s; [discriminate|]|]; reflexivity. Qed.

End Strip.

Section Whitespace.
Context `{J : JsonModule}.

(** X10: [simple_server.py] and [basic_server.py] strip a line before
    decoding it, so whitespace before and after a request (indentation, a
    carriage return before the newline, no newline at all) changes nothing:
    the run on the padded line is the run on the line itself. *)
Theorem X10_surrounding_whitespace_is_ignored
    (pre : list string) (line : string) (rest : list string) (a b : string) :
  no_empty_read pre = true ->
  is_empty line = false ->
  all_space a = true ->
  all_space b = true ->
  SimpleServer.main (pre ++ (a ++ line ++ b)%string :: rest)
  = SimpleServer.main (pre ++ line :: rest)
  /\ BasicServer.main (pre ++ (a ++ line ++ b)%string :: rest)
     = BasicServer.main (pre ++ line :: rest).
Proof.
  intros Hne Hl Ha Hb.
  pose proof (is_empty_pad a line b Hl) as Hl'.
  pose proof (strip_pad a line b Ha Hb) as Hstrip.
  split.
  - rewrite !simple_main_app by exact Hne.
    rewrite !simple_loop_cons by assumption.
    unfold SimpleServer.step, SimpleServer.handle. now rewrite Hstrip.
  - rewrite !basic_main_app by exact Hne.
    rewrite !basic_loop_cons by assumption.
    unfold BasicServer.step, BasicServer.handle. now rewrite Hstrip.
Qed.

End Whitespace.

Lemma X10_surrounding_whitespace_is_ignored_witness :
  SimpleServer.main (J := ref)
    ([] ++ ("  " ++ Lines.tools_list_1
                 ++ String (ascii_of_nat 13) (String (ascii_of_nat 10) ""))%string
        :: [Lines.initialize_2])
  = SimpleServer.main (J := ref) ([] ++ Lines.tools_list_1 :: [Lines.initialize_2]).
Proof.
  exact (proj1 (X10_surrounding_whitespace_is_ignored (J := ref)
                  [] Lines.tools_list_1 [Lines.initialize_2]
                  "  " (String (ascii_of_nat 13) (String (ascii_of_nat 10) ""))
                  eq_refl eq_refl eq_refl eq_refl)).
Defined.

(** ** The tool handlers and their arguments *)

Section Handlers.
Variable py_str : json -> string.

(** X11: [call_tool] of [server_fixed.py] and of [working_server.py] looks
    at two arguments only.  Two argument dicts that agree on
    ["pattern_type"] and ["pattern_data"] (present or absent alike, and of
    the same value) get the same result for every tool name, whatever else
    they carry; [architecture_status] looks at none. *)
Theorem X11_call_tool_reads_two_arguments
    (n : string) (arguments arguments' : dict) :
  (forall key, key = "pattern_type" \/ key = "pattern_data" ->
     dict_mem arguments key = dict_mem arguments' key
     /\ dict_get arguments key = dict_get arguments' key) ->
  ServerFixed.call_tool py_str n arguments
  = ServerFixed.call_tool py_str n arguments'
  /\ WorkingServer.call_tool py_str n arguments
     = WorkingServer.call_tool py_str n arguments'
  /\ ServerFixed.call_tool py_str "architecture_status" arguments
     = ServerFixed.call_tool py_str "architecture_status" []
  /\ ServerStdio.call_tool n arguments = ServerStdio.call_tool n [].
Proof.
  intros Hkeys.
  destruct (Hkeys "pattern_type" (or_introl eq_refl)) as [Hm1 Hg1].
  destruct (Hkeys "pattern_data" (or_intror eq_refl)) as [Hm2 Hg2].
  unfold ServerFixed.call_tool, WorkingServer.call_tool, ServerStdio.call_tool.
  rewrite !dict_get_default_spec, Hm1, Hg1, Hm2, Hg2.
  repeat split.
Qed.

(** X12: on string arguments the handlers of [server_fixed.py] and
    [working_server.py] return, as their one text block, what the tools of
    [server.py] return: [add_pattern] called with a ["pattern_type"] and a
    ["pattern_data"] that are strings gives the text of [server.py]'s
    [add_pattern] on them, and [architecture_status] gives the text of
    [server.py]'s [architecture_status]. *)
Theorem X12_handlers_agree_with_server_py
    (arguments : dict) (pattern_type pattern_data : string) :
  dict_get arguments "pattern_type" = JStr pattern_type ->
  dict_get arguments "pattern_data" = JStr pattern_data ->
  ServerFixed.call_tool py_str "add_pattern" arguments
  = Some [ {| type := "text";
              text := Server.add_pattern pattern_type pattern_data |} ]
  /\ WorkingServer.call_tool py_str "add_pattern" arguments
     = Some [ {| type := "text";
                 text := Server.add_pattern pattern_type pattern_data |} ]
  /\ ServerFixed.call_tool py_str "architecture_status" arguments
     = Some [ {| type := "text"; text := Server.architecture_status |} ].
Proof.
  intros Ht Hd.
  unfold ServerFixed.call_tool, WorkingServer.call_tool, pattern_added,
    Server.add_pattern.
  cbn [String.eqb Ascii.eqb Bool.eqb].
  rewrite !dict_get_default_spec.
  rewrite (dict_get_str_mem _ _ _ Ht), (dict_get_str_mem _ _ _ Hd), Ht, Hd.
  repeat split.
Qed.

End Handlers.

Lemma X11_call_tool_reads_two_arguments_witness :
  ServerFixed.call_tool RefJson.ref_str "add_pattern"
    [("note", JInt 1); ("pattern_type", JStr "layered")]
  = ServerFixed.call_tool RefJson.ref_str "add_pattern"
      [("pattern_type", JStr "layered"); ("draft", JBool true)].
Proof.
  refine (proj1 (X11_call_tool_reads_two_arguments RefJson.ref_str "add_pattern"
                   [("note", JInt 1); ("pattern_type", JStr "layered")]
                   [("pattern_type", JStr "layered"); ("draft", JBool true)]
                   _)).
  intros key [-> | ->]; split; reflexivity.
Defined.

Lemma X12_handlers_agree_with_server_py_witness :
  ServerFixed.call_tool RefJson.ref_str "add_pattern"
    [("pattern_data", JStr "three tiers"); ("pattern_type", JStr "layered")]
  = Some [ {| type := "text"; text := "Pattern layered added: three tiers" |} ].
Proof.
  exact (proj1 (X12_handlers_agree_with_server_py RefJson.ref_str
                  [("pattern_data", JStr "three tiers"); ("pattern_type", JStr "layered")]
                  "layered" "three tiers" eq_refl eq_refl)).
Defined.

(** ** The configuration resource of server.py *)

(** X13: [get_config] of [server.py] never fails: for the four configured
    components it returns their text, and it returns
    ["Config for <component> not found"] for exactly the others. *)
Theorem X13_get_config_not_found_iff_unknown (component : string) :
  (Server.get_config component
   = ("Config for " ++ component ++ " not found")%string
   <-> ~ In component ["accuracy"; "tools"; "memory"; "mcp"])
  /\ (In component ["accuracy"; "tools"; "memory"; "mcp"] ->
      In (component, Server.get_config component) Server.configs).
Proof.
  unfold Server.get_config, Server.configs. cbn [str_get].
  destruct (String.eqb_spec "accuracy" component) as [<-|Ha].
  { split; [split; [discriminate|intros H; exfalso; apply H; now left]|].
    intros _. now left. }
  destruct (String.eqb_spec "tools" component) as [<-|Ht].
  { split; [split; [discriminate|intros H; exfalso; apply H; right; now left]|].
    intros _. right. now left. }
  destruct (String.eqb_spec "memory" component) as [<-|Hm].
  { split; [split; [discriminate|
                    intros H; exfalso; apply H; right; right; now left]|].
    intros _. right. right. now left. }
  destruct (String.eqb_spec "mcp" component) as [<-|Hc].
  { split; [split; [discriminate|
                    intros H; exfalso; apply H; right; right; right; now left]|].
    intros _. right. right. right. now left. }
  split.
  - split; [|reflexivity]. intros _ [H|[H|[H|[H|[]]]]]; contradiction.
  - intros [H|[H|[H|[H|[]]]]]; contradiction.
Qed.

(** ** The two serving scripts side by side *)

Section SideBySide.
Context `{J : JsonModule}.

Lemma same_stdout_step (line : string) :
  (forall d, loads (strip line) = Some (JObj d) ->
             eq_str (dict_get d "method") "tools/list" = false) ->
  stdout_of (BasicServer.step line) = stdout_of (SimpleServer.step line).
Proof.
  intros Hno. destruct (loads (strip line)) as [v|] eqn:Hd.
  - destruct v as [| | | | |items|d];
      try (unfold BasicServer.step, BasicServer.handle, SimpleServer.step,
             SimpleServer.handle, json_loads; rewrite Hd; reflexivity).
    rewrite (basic_step_object line d Hd), (simple_step_object line d Hd).
    rewrite (Hno d eq_refl).
    destruct (eq_str (dict_get d "method") "initialize") eqn:Hm.
    + apply eq_str_true in Hm.
      rewrite (dict_get_str_mem d "method" "initialize" Hm).
      now destruct (dict_mem d "id").
    + now destruct (dict_mem d "method").
  - now rewrite (basic_step_malformed line Hd), (simple_step_malformed line Hd).
Qed.

(** X14: the two scripts differ on [tools/list] alone.  On an input none
    of whose lines decodes to a [tools/list] request, [basic_server.py] and
    [simple_server.py] write the same lines to stdout and leave the same
    reads unread. *)
Theorem X14_scripts_agree_without_tools_list (reads : list string) :
  (forall line d, In line reads ->
     loads (strip line) = Some (JObj d) ->
     eq_str (dict_get d "method") "tools/list" = false) ->
  stdout_of (events (BasicServer.main reads))
  = stdout_of (events (SimpleServer.main reads))
  /\ unread (BasicServer.main reads) = unread (SimpleServer.main reads).
Proof.
  intros Hno. unfold BasicServer.main, SimpleServer.main.
  rewrite basic_loop_serves, simple_loop_serves. simpl.
  split; [|reflexivity].
  induction reads as [|r reads IH]; simpl; [reflexivity|].
  destruct (is_empty r); simpl; [reflexivity|].
  rewrite !stdout_of_app. f_equal.
  - apply same_stdout_step. intros d. apply Hno. now left.
  - apply IH. intros line d Hin. apply Hno. now right.
Qed.

End SideBySide.

Lemma X14_scripts_agree_without_tools_list_witness :
  stdout_of (events (BasicServer.main (J := ref)
                       [Lines.initialize_1; Lines.garbage; Lines.ping_5]))
  = stdout_of (events (SimpleServer.main (J := ref)
                         [Lines.initialize_1; Lines.garbage; Lines.ping_5])).
Proof.
  refine (proj1 (X14_scripts_agree_without_tools_list (J := ref)
                   [Lines.initialize_1; Lines.garbage; Lines.ping_5] _)).
  intros line d [<-|[<-|[<-|[]]]] Hd; vm_compute in Hd;
    try discriminate; injection Hd as <-; reflexivity.
Defined.
